(** * Smart Healthcare Operations Optimizer: the dashboard's formulas

    A shallow embedding of [src/app.py].  The script has no functions: each
    assignment of its two tabs is one definition below, named after the
    variable it assigns.  Python's [int] is [Z]; Python's [float] is IEEE 754
    binary64, here Rocq's primitive [float] with the same round-to-nearest-even
    operations, so every formula evaluates bit for bit as in the script.

    The definitions come first: Python's numbers, the two tabs, and the checks
    that are run over the finite domains of the widgets.  The properties
    follow: binary64 facts, then the metrics, the return on investment, the
    advisory messages, the declared domains and the Six Sigma estimator. *)

From Stdlib Require Import ZArith Floats List Lia Bool String DecimalString.
Import ListNotations.

Local Open Scope Z_scope.

(** ** Python numbers

    The values the script computes with are Python [int]s (widget values and
    literals) and [float]s (every result of [/]).  Arithmetic between an [int]
    and a [float] converts the [int] first; [/] is true division, always a
    [float], and raises [ZeroDivisionError] on a zero divisor. *)
Module Py.

Inductive num : Type :=
| PyInt (z : Z)
| PyFloat (f : float).

Inductive error : Type :=
| ZeroDivisionError.

Inductive result (A : Type) : Type :=
| Ok (a : A)
| Raise (e : error).
Arguments Ok {A} a.
Arguments Raise {A} e.

Definition bind {A B} (r : result A) (k : A -> result B) : result B :=
  match r with
  | Ok a => k a
  | Raise e => Raise e
  end.

Declare Scope py_scope.
Delimit Scope py_scope with py.
Notation "x <- r ;; k" := (bind r (fun x => k))
  (at level 61, r at next level, right associativity) : py_scope.

(** [float(n)]: the binary64 value nearest to [n], ties to even.  It is [n]
    itself whenever [|n| < 2^53] ([float_of_int_exact] below), which holds for
    every integer the widgets of the script can deliver (the largest bound is
    10,000,000) and for every product or difference of them.  On such
    operands [int / int] is the binary64 quotient of the converted operands,
    which is how [truediv] computes it.  (On integers that [float] cannot
    hold, Python rounds the exact quotient once, and raises [OverflowError]
    beyond the range of binary64; the script never meets such operands and
    they are not modelled.) *)
Definition float_of_int (z : Z) : float :=
  SF2Prim (binary_normalize prec emax z 0 false).

Definition to_float (x : num) : float :=
  match x with
  | PyInt z => float_of_int z
  | PyFloat f => f
  end.

Definition is_zero (x : num) : bool :=
  match x with
  | PyInt z => z =? 0
  | PyFloat f => PrimFloat.is_zero f
  end.

Definition is_nan (x : num) : bool :=
  match x with
  | PyInt _ => false
  | PyFloat f => PrimFloat.is_nan f
  end.

Definition mul (x y : num) : num :=
  match x, y with
  | PyInt a, PyInt b => PyInt (a * b)
  | _, _ => PyFloat (to_float x * to_float y)
  end.

Definition sub (x y : num) : num :=
  match x, y with
  | PyInt a, PyInt b => PyInt (a - b)
  | _, _ => PyFloat (to_float x - to_float y)
  end.

Definition truediv (x y : num) : result num :=
  if is_zero y then Raise ZeroDivisionError
  else Ok (PyFloat (to_float x / to_float y)).

Definition lt (x y : num) : bool :=
  match x, y with
  | PyInt a, PyInt b => a <? b
  | _, _ => (to_float x <? to_float y)%float
  end.

Definition le (x y : num) : bool :=
  match x, y with
  | PyInt a, PyInt b => a <=? b
  | _, _ => (to_float x <=? to_float y)%float
  end.

Definition gt (x y : num) : bool := lt y x.
Definition ge (x y : num) : bool := le y x.

(** The builtins [min(a, b)] and [max(a, b)] keep the first argument unless
    the second is strictly smaller (larger); the result is one of the two
    objects, with its own type. *)
Definition min (a b : num) : num := if lt b a then b else a.
Definition max (a b : num) : num := if gt b a then b else a.

End Py.

Import Py.
Local Open Scope py_scope.
Local Open Scope string_scope.

(** ** Tab 1: the dashboard *)

(** An integer widget, [st.slider(label, min_value, max_value, value)] or
    [st.number_input(label, min_value, max_value, value)] with [int]
    arguments: it delivers an [int] between its two bounds. *)
Record int_widget : Type :=
  IntWidget { min_value : Z; max_value : Z; value : Z }.

Definition delivers (w : int_widget) (v : Z) : Prop :=
  min_value w <= v <= max_value w.

Definition num_doctors_slider : int_widget := IntWidget 1 20 5.
Definition num_patients_per_hour_slider : int_widget := IntWidget 10 100 30.
Definition consult_time_slider : int_widget := IntWidget 5 30 10.
Definition num_beds_slider : int_widget := IntWidget 5 100 20.
Definition staff_shifts_slider : int_widget := IntWidget 1 5 3.

(** The core calculations, one definition for each assignment. *)
Definition patients_per_doctor (num_patients_per_hour num_doctors : Z) : result num :=
  truediv (PyInt num_patients_per_hour) (PyInt num_doctors).

Definition doctor_utilization (patients_per_doctor : num) (consult_time : Z) : result num :=
  q <- truediv (mul patients_per_doctor (PyInt consult_time)) (PyInt 60) ;;
  Ok (min (PyInt 100) (mul q (PyInt 100))).

Definition waiting_time (patients_per_doctor : num) (consult_time : Z) : num :=
  max (PyInt 0) (sub (mul patients_per_doctor (PyInt consult_time)) (PyInt 60)).

Definition bed_utilization (num_patients_per_hour num_beds : Z) : result num :=
  q <- truediv (PyInt num_patients_per_hour) (PyInt num_beds) ;;
  Ok (min (PyInt 100) (mul q (PyInt 100))).

Definition throughput (num_patients_per_hour staff_shifts : Z) : num :=
  mul (PyInt num_patients_per_hour) (PyInt staff_shifts).

(** The recommendations. *)
Definition doctor_overutilized : string :=
  "⚠️ Doctors are overutilized. Consider hiring more doctors or reducing consultation time.".
Definition doctor_optimal : string := "✅ Doctor utilization is optimal.".
Definition bed_overflow : string := "⚠️ High bed occupancy. Risk of patient overflow!".
Definition bed_healthy : string := "✅ Bed availability is healthy.".

Definition doctor_msg (doctor_utilization : num) : string :=
  if gt doctor_utilization (PyInt 90) then doctor_overutilized else doctor_optimal.

Definition bed_msg (bed_utilization : num) : string :=
  if gt bed_utilization (PyInt 85) then bed_overflow else bed_healthy.

(** The variables of the tab once its calculations have run, in the order the
    script assigns them. *)
Record tab1_vars : Type := Tab1 {
  v_patients_per_doctor : num;
  v_doctor_utilization : num;
  v_waiting_time : num;
  v_bed_utilization : num;
  v_throughput : num;
  v_doctor_msg : string;
  v_bed_msg : string
}.

Definition tab1 (num_doctors num_patients_per_hour consult_time num_beds staff_shifts : Z)
  : result tab1_vars :=
  ppd <- patients_per_doctor num_patients_per_hour num_doctors ;;
  du <- doctor_utilization ppd consult_time ;;
  let wt := waiting_time ppd consult_time in
  bu <- bed_utilization num_patients_per_hour num_beds ;;
  let tp := throughput num_patients_per_hour staff_shifts in
  Ok (Tab1 ppd du wt bu tp (doctor_msg du) (bed_msg bu)).

(** ** Tab 2: advanced analytics *)

(** The messages go to the page through one of Streamlit's four alert boxes;
    the call that is made is the classification. *)
Inductive st_call : Type :=
| st_success (body : string)
| st_info (body : string)
| st_warning (body : string)
| st_error (body : string).

Definition investment_input : int_widget := IntWidget 10000 10000000 500000.
Definition annual_savings_input : int_widget := IntWidget 1000 5000000 100000.
Definition years_slider : int_widget := IntWidget 1 10 3.
Definition defects_input : int_widget := IntWidget 0 1000 50.

Definition roi (investment annual_savings years : Z) : result num :=
  q <- truediv (sub (mul (PyInt annual_savings) (PyInt years)) (PyInt investment))
               (PyInt investment) ;;
  Ok (mul q (PyInt 100)).

Definition roi_excellent : st_call :=
  st_success "✅ Excellent ROI — expansion or new process design is financially viable.".
Definition roi_moderate : st_call :=
  st_warning "⚠️ Moderate ROI — consider fine-tuning your process.".
Definition roi_negative : st_call :=
  st_error "❌ Negative ROI — not financially feasible.".

Definition roi_alert (roi : num) : st_call :=
  if gt roi (PyInt 50) then roi_excellent
  else if gt roi (PyInt 0) then roi_moderate
  else roi_negative.

Definition opportunities : num := mul (PyInt 1000) (PyInt 10).

Definition dpmo (defects : Z) : result num :=
  q <- truediv (PyInt defects) opportunities ;;
  Ok (mul q (PyInt 1000000)).

(** The literal [3.4] is the binary64 value nearest to 3.4. *)
Definition lit_3_4 : float := 0x1.b333333333333p+1%float.

Section SixSigma.

(** [numpy.log10] on a binary64 value is not part of the script: it is a
    parameter here.  The level comes with the list of the arguments at which
    [np.log10] was called while it was computed. *)
Variable log10 : float -> float.

Definition np_log10 (x : num) : num * list float :=
  (PyFloat (log10 (to_float x)), [to_float x]).

Definition sigma_level (dpmo : num) : result (num * list float) :=
  if gt dpmo (PyInt 0) then
    x <- truediv dpmo (PyFloat lit_3_4) ;;
    let (l, calls) := np_log10 x in
    Ok (sub (PyInt 6) l, calls)
  else
    Ok (sub (PyInt 6) (PyInt 0), []).

Definition six_sigma (defects : Z) : result (num * num * list float) :=
  d <- dpmo defects ;;
  s <- sigma_level d ;;
  Ok (d, fst s, snd s).

End SixSigma.

Definition sigma_world_class : st_call :=
  st_success "✅ Excellent process quality (World-Class).".
Definition sigma_good : st_call :=
  st_info "🟢 Good process, scope for improvement.".
Definition sigma_moderate : st_call :=
  st_warning "🟠 Moderate quality — consider Six Sigma interventions.".
Definition sigma_poor : st_call :=
  st_error "🔴 Poor quality — urgent process redesign required.".

Definition sigma_alert (sigma_level : num) : st_call :=
  if ge sigma_level (PyInt 5) then sigma_world_class
  else if ge sigma_level (PyInt 4) then sigma_good
  else if ge sigma_level (PyInt 3) then sigma_moderate
  else sigma_poor.

(** ** Text

    [str(n)] of an [int], and the format specification [.Nf] of an f-string:
    the exact value of the binary64 number, rounded to [N] decimals with ties
    to even, written in full.  An [int] is converted to [float] first. *)
Definition str (z : Z) : string := NilZero.string_of_int (Z.to_int z).

Fixpoint zeros (n : nat) : string :=
  match n with
  | O => ""
  | S n' => "0" ++ zeros n'
  end.

Definition round_half_even (num den : Z) : Z :=
  let q := num / den in
  match 2 * (num mod den) ?= den with
  | Lt => q
  | Eq => if Z.even q then q else q + 1
  | Gt => q + 1
  end.

(** [q] is the value times [10^N], an integer: the digits before the point,
    the point and [N] digits after it; no point for [N = 0]. *)
Definition fixed_digits (N : nat) (q : Z) : string :=
  match N with
  | O => str q
  | S _ =>
      let scale := 10 ^ Z.of_nat N in
      let frac := str (q mod scale) in
      str (q / scale) ++ "." ++ zeros (N - String.length frac) ++ frac
  end.

Definition format_float (N : nat) (f : float) : string :=
  match Prim2SF f with
  | S754_nan => "nan"
  | S754_infinity s => if s then "-inf" else "inf"
  | S754_zero s => (if s then "-" else "") ++ fixed_digits N 0
  | S754_finite s m e =>
      let q := match e with
               | Zneg k => round_half_even (Zpos m * 10 ^ Z.of_nat N) (2 ^ Zpos k)
               | _ => Zpos m * 2 ^ e * 10 ^ Z.of_nat N
               end in
      (if s then "-" else "") ++ fixed_digits N q
  end.

Definition format_f (N : nat) (x : num) : string := format_float N (to_float x).

(** ** Tab 1: what the page shows *)

(** [st.metric(label, value)], as the pair of its arguments. *)
Definition metric : Type := (string * string)%type.

Definition kpi_metrics (v : tab1_vars) : list metric :=
  [ ("Doctor Utilization", format_f 1 (v_doctor_utilization v) ++ " %");
    ("Avg Waiting Time", format_f 1 (v_waiting_time v) ++ " mins");
    ("Bed Utilization", format_f 1 (v_bed_utilization v) ++ " %") ].

(** [f"{throughput}"] has no format specification: for an [int] it is
    [str(throughput)].  The throughput is a product of two [int]s, so it is
    never a [float], whose [repr] is not modelled. *)
Definition throughput_metric (throughput : num) : option metric :=
  match throughput with
  | PyInt n => Some ("Throughput (patients/shift)", str n)
  | PyFloat _ => None
  end.

(** The bar chart: one [go.Bar] trace and the layout of the figure. *)
Record bar_figure : Type := BarFigure {
  bar_x : list string;
  bar_y : list num;
  marker_color : list string;
  layout_title : string;
  yaxis_range : num * num
}.

Definition fig (v : tab1_vars) : bar_figure :=
  {| bar_x := ["Doctors"; "Beds"];
     bar_y := [v_doctor_utilization v; v_bed_utilization v];
     marker_color := ["#2E86AB"; "#76B041"];
     layout_title := "Resource Utilization (%)";
     yaxis_range := (PyInt 0, PyInt 120) |}.

(** The insights: the five [st.write] calls. *)
Definition insights (v : tab1_vars) : list string :=
  [ "- " ++ v_doctor_msg v;
    "- " ++ v_bed_msg v;
    "- Improve scheduling efficiency using rotation between shifts.";
    "- Apply Lean or Six Sigma principles to reduce waiting time.";
    "- Evaluate ROI before capacity expansion." ].

(** *** The progress bar

    [st.progress(value, text)] and the [progress] method of the bar it returns
    take an [int] from 0 to 100 and raise [StreamlitAPIException] for any
    other.  The loop is [for percent_complete in range(count)] with
    [count = 100] in the script; a run is recorded as the calls it makes. *)
Inductive st_exception : Type :=
| StreamlitAPIException.

Inductive sim_call : Type :=
| time_sleep (seconds : float)
| bar_progress (value : Z) (text : string)
| sim_success (body : string).

Record sim_state : Type := SimState {
  my_bar : Z;
  calls : list sim_call
}.

Definition progress (value : Z) (text : string) (s : sim_state)
  : sim_state + st_exception :=
  if ((0 <=? value) && (value <=? 100))%Z
  then inl {| my_bar := value; calls := calls s ++ [bar_progress value text] |}
  else inr StreamlitAPIException.

Definition sleep (seconds : float) (s : sim_state) : sim_state :=
  {| my_bar := my_bar s; calls := calls s ++ [time_sleep seconds] |}.

(** The literal [0.01] is the binary64 value nearest to 0.01. *)
Definition lit_0_01 : float := 0x1.47ae147ae147bp-7%float.

Definition loop_body (percent_complete : Z) (s : sim_state) : sim_state + st_exception :=
  progress (percent_complete + 1)
           ("Simulating " ++ str (percent_complete + 1) ++ "%")
           (sleep lit_0_01 s).

Fixpoint for_range (start : Z) (count : nat)
    (body : Z -> sim_state -> sim_state + st_exception) (s : sim_state)
  : sim_state + st_exception :=
  match count with
  | O => inl s
  | S n =>
      match body start s with
      | inl s' => for_range (start + 1) n body s'
      | inr e => inr e
      end
  end.

Definition simulation_loop (count : nat) : sim_state + st_exception :=
  match progress 0 "Simulating patient inflow..." {| my_bar := 0; calls := [] |} with
  | inl s => for_range 0 count loop_body s
  | inr e => inr e
  end.

Definition simulation : sim_state + st_exception :=
  match simulation_loop 100 with
  | inl s =>
      let s := sleep 0.5 s in
      inl {| my_bar := my_bar s;
             calls := calls s ++ [sim_success "✅ Simulation Complete"] |}
  | inr e => inr e
  end.

(** What one iteration of the loop calls, for the value [k] of the bar. *)
Definition loop_calls (k : Z) : list sim_call :=
  [time_sleep lit_0_01; bar_progress k ("Simulating " ++ str k ++ "%")].

(** ** Tab 2: what the page shows *)
Definition roi_metric (roi : num) : metric :=
  ("ROI over Time Period", format_f 2 roi ++ " %").

Definition six_sigma_metrics (dpmo sigma_level : num) : list metric :=
  [ ("Defects per Million Opportunities (DPMO)", format_f 0 dpmo);
    ("Estimated Sigma Level", format_f 2 sigma_level ++ " σ") ].

(** ** Evaluation on the declared domains

    The widgets deliver finitely many inputs.  A property of the binary64
    results that rounding could in principle break is checked by evaluating
    the formulas of the script on every input of the domain; these are the
    checks. *)
Fixpoint forall_from (lo : Z) (n : nat) (f : Z -> bool) : bool :=
  match n with
  | O => true
  | S n' => f lo && forall_from (lo + 1) n' f
  end.

Definition forall_between (lo hi : Z) (f : Z -> bool) : bool :=
  forall_from lo (Z.to_nat (hi - lo + 1)) f.

Definition forall_widget (w : int_widget) (f : Z -> bool) : bool :=
  forall_between (min_value w) (max_value w) f.

Definition is_int (n : Z) (x : num) : bool :=
  match x with
  | PyInt z => (z =? n)%Z
  | PyFloat _ => false
  end.

(** What is checked of the doctors' figures at one input: the calculations
    return, the utilization is between 0 and 100, and when the waiting time
    is above 0 the utilization is the integer 100. *)
Definition doctor_figures_ok (d p c : Z) : bool :=
  match patients_per_doctor p d with
  | Ok ppd =>
    match doctor_utilization ppd c with
    | Ok du =>
      le (PyInt 0) du && le du (PyInt 100) &&
      (if gt (waiting_time ppd c) (PyInt 0)
       then is_int 100 du
       else true)
    | Raise _ => false
    end
  | Raise _ => false
  end.

Definition bed_figures_ok (p b : Z) : bool :=
  match bed_utilization p b with
  | Ok bu => le (PyInt 0) bu && le bu (PyInt 100)
  | Raise _ => false
  end.

Definition dpmo_value (defects : Z) : float :=
  (float_of_int defects / 10000 * 1000000)%float.

(** What is checked of the DPMO at one input: it is 0 or above 0, and it is
    0 for no defect only. *)
Definition dpmo_sign_ok (defects : Z) : bool :=
  let d := dpmo_value defects in
  ((0 <? d)%float || (d =? 0)%float) &&
  Bool.eqb (d =? 0)%float (defects =? 0)%Z.

(** The integers that [float] holds exactly; every widget value is one. *)
Definition exact_int (z : Z) : Prop := Z.abs z < 2 ^ 53.

(** ** Evaluation on the declared domains, shared conversions

    The same evaluation as above on the formulas written on [float]s, each
    widget value being converted once. *)
Definition widget_values (w : int_widget) : list Z :=
  map (fun k => min_value w + Z.of_nat k)
      (seq 0 (Z.to_nat (max_value w - min_value w + 1))).

Definition widget_floats (w : int_widget) : list (Z * float) :=
  map (fun z => (z, float_of_int z)) (widget_values w).

Definition doctor_grid (check : Z -> float -> Z -> float -> Z -> float -> bool) : bool :=
  let ds := widget_floats num_doctors_slider in
  let ps := widget_floats num_patients_per_hour_slider in
  let cs := widget_floats consult_time_slider in
  forallb (fun d => forallb (fun p => forallb (fun c =>
    check (fst d) (snd d) (fst p) (snd p) (fst c) (snd c)) cs) ps) ds.

Definition bed_grid (check : Z -> float -> Z -> float -> bool) : bool :=
  let ps := widget_floats num_patients_per_hour_slider in
  let bs := widget_floats num_beds_slider in
  forallb (fun p => forallb (fun b =>
    check (fst p) (snd p) (fst b) (snd b)) bs) ps.

(** The arguments of [min(100, _)] and [max(0, _)] in the core calculations. *)
Definition raw_utilization (fd fp fc : float) : float := (fp / fd * fc / 60 * 100)%float.
Definition raw_waiting (fd fp fc : float) : float := (fp / fd * fc - 60)%float.
Definition raw_bed (fp fb : float) : float := (fp / fb * 100)%float.

(** [min(100, raw)] and [max(0, raw)] as [float]s. *)
Definition capped (raw : float) : float := if (raw <? 100)%float then raw else 100%float.
Definition floored (raw : float) : float := if (0 <? raw)%float then raw else 0%float.

(** The inputs at which the exact utilization is 90 percent and the computed
    one is above 90, and those at which the exact utilization is 100 percent
    and the computed one is below 100. *)
Definition above_90_by_rounding : list (Z * Z * Z) :=
  [(7, 18, 21); (13, 27, 26); (13, 54, 13); (14, 36, 21)].
Definition below_100_by_rounding : list (Z * Z * Z) :=
  [(11, 30, 22); (11, 60, 11); (13, 30, 26); (13, 60, 13)].

Definition eqb3 (x y : Z * Z * Z) : bool :=
  let '(a, b, c) := x in let '(a', b', c') := y in
  ((a =? a') && (b =? b') && (c =? c'))%Z.

Definition mem3 (x : Z * Z * Z) (l : list (Z * Z * Z)) : bool := existsb (eqb3 x) l.

Definition thresholds_ok (d : Z) (fd : float) (p : Z) (fp : float) (c : Z) (fc : float)
  : bool :=
  let raw := raw_utilization fd fp fc in
  let w := raw_waiting fd fp fc in
  Bool.eqb (if (raw <? 100)%float then (90 <? raw)%float else true)
           ((54 * d <? p * c)%Z || mem3 (d, p, c) above_90_by_rounding) &&
  Bool.eqb (0 <? w)%float (60 * d <? p * c)%Z &&
  Bool.eqb (negb (raw <? 100)%float)
           ((60 * d <=? p * c)%Z && negb (mem3 (d, p, c) below_100_by_rounding)).

Definition display_ok (d : Z) (fd : float) (p : Z) (fp : float) (c : Z) (fc : float)
  : bool :=
  let raw := raw_utilization fd fp fc in
  let w := raw_waiting fd fp fc in
  Bool.eqb (if (raw <? 100)%float then String.eqb (format_float 1 raw) "100.0" else true)
           (60 * d <=? p * c)%Z &&
  Bool.eqb (if (0 <? w)%float then String.eqb (format_float 1 w) "0.0" else true)
           (p * c <=? 60 * d)%Z.

Definition monotone_ok (d : Z) (fd : float) (p : Z) (fp : float) (c : Z) (fc : float)
  : bool :=
  let u := capped (raw_utilization fd fp fc) in
  let w := floored (raw_waiting fd fp fc) in
  let fd' := float_of_int (d + 1) in
  let fp' := float_of_int (p + 1) in
  let fc' := float_of_int (c + 1) in
  (capped (raw_utilization fd' fp fc) <=? u)%float &&
  (floored (raw_waiting fd' fp fc) <=? w)%float &&
  (u <=? capped (raw_utilization fd fp' fc))%float &&
  (w <=? floored (raw_waiting fd fp' fc))%float &&
  (u <=? capped (raw_utilization fd fp fc'))%float &&
  (w <=? floored (raw_waiting fd fp fc'))%float.

Definition bed_ok (p : Z) (fp : float) (b : Z) (fb : float) : bool :=
  let raw := raw_bed fp fb in
  let u := capped raw in
  Bool.eqb (if (raw <? 100)%float then (85 <? raw)%float else true) (85 * b <? 100 * p)%Z &&
  Bool.eqb (negb (raw <? 100)%float) (b <=? p)%Z &&
  Bool.eqb (if (raw <? 100)%float then String.eqb (format_float 1 raw) "100.0" else true)
           (b <=? p)%Z &&
  (capped (raw_bed fp (float_of_int (b + 1))) <=? u)%float &&
  (u <=? capped (raw_bed (float_of_int (p + 1)) fb))%float.

Definition dpmo_display_ok (defects : Z) : bool :=
  String.eqb (format_float 0 (dpmo_value defects)) (str (100 * defects)).

(** A binary64 logarithm to run the estimator with: [x = m * 2^e] with
    [0.5 <= m < 1], [ln m = 2 atanh ((m - 1) / (m + 1))] summed as a series,
    and [log10 x = (ln m + e ln 2) / ln 10].  It stands for [np.log10] where a
    statement is evaluated on a concrete input. *)
Fixpoint atanh_series (n : nat) (term t2 k acc : float) : float :=
  match n with
  | O => acc
  | S n' => atanh_series n' (term * t2) t2 (k + 2) (acc + term / k)
  end%float.

Definition ln_2 : float := 0x1.62e42fefa39efp-1%float.
Definition ln_10 : float := 0x1.26bb1bbb55516p+1%float.

Definition log10_series (x : float) : float :=
  let (m, e) := Z.frexp x in
  let t := ((m - 1) / (m + 1))%float in
  let ln_m := (2 * atanh_series 30 t (t * t) 1 0)%float in
  ((ln_m + float_of_int e * ln_2) / ln_10)%float.

(** * Properties *)

(** ** Binary64 values

    [PrimFloat] specifies its operations through [SpecFloat]: comparisons by
    [SFcompare], arithmetic by rounding an exact mantissa.  The facts that the
    threshold tests and the formulas below rely on are derived here from that
    specification: the order, the values that rounding leaves unchanged, and
    where a NaN can come from. *)
Module Binary64.

Local Open Scope Z_scope.

Definition is_nanSF (x : spec_float) : bool :=
  match x with S754_nan => true | _ => false end.

Ltac cmp_cases :=
  repeat match goal with
  | |- context [Z.compare ?a ?b] => destruct (Z.compare_spec a b)
  | H : context [Z.compare ?a ?b] |- _ => destruct (Z.compare_spec a b)
  | |- context [Pos.compare_cont Eq ?a ?b] =>
      change (Pos.compare_cont Eq a b) with (Pos.compare a b);
      destruct (Pos.compare_spec a b)
  | H : context [Pos.compare_cont Eq ?a ?b] |- _ =>
      change (Pos.compare_cont Eq a b) with (Pos.compare a b) in H;
      destruct (Pos.compare_spec a b)
  end.

Ltac sf_cases :=
  repeat match goal with
  | x : spec_float |- _ => destruct x as [[]|[]| |[] ? ?]
  end;
  cbn in *; try discriminate; try reflexivity; try tauto.

Lemma SFcompare_antisym x y :
  SFcompare y x = option_map CompOpp (SFcompare x y).
Proof.
  sf_cases; cmp_cases; cbn; subst; try reflexivity; try lia.
Qed.

Lemma SFcompare_refl x : is_nanSF x = false -> SFcompare x x = Some Eq.
Proof.
  sf_cases; intros _; rewrite Z.compare_refl;
    change (Pos.compare_cont Eq ?a ?b) with (Pos.compare a b);
    rewrite Pos.compare_refl; reflexivity.
Qed.

Lemma SFeqb_refl x : SFeqb x x = negb (is_nanSF x).
Proof.
  unfold SFeqb. destruct (is_nanSF x) eqn:E.
  - destruct x; try discriminate. reflexivity.
  - now rewrite SFcompare_refl.
Qed.

Lemma SFcompare_none x y :
  SFcompare x y = None -> is_nanSF x = true \/ is_nanSF y = true.
Proof. sf_cases. Qed.

Lemma SFltb_leb x y : SFltb x y = true -> SFleb x y = true.
Proof. unfold SFltb, SFleb. destruct (SFcompare x y) as [[]|]; auto. Qed.

Lemma SFltb_not_leb x y : SFltb x y = true -> SFleb y x = false.
Proof.
  unfold SFltb, SFleb. rewrite (SFcompare_antisym x y).
  destruct (SFcompare x y) as [[]|]; cbn; auto; discriminate.
Qed.

Lemma SFleb_not_ltb x y : SFleb x y = true -> SFltb y x = false.
Proof.
  unfold SFltb, SFleb. rewrite (SFcompare_antisym x y).
  destruct (SFcompare x y) as [[]|]; cbn; auto; discriminate.
Qed.

Lemma SFltb_or_leb x y :
  is_nanSF x = false -> is_nanSF y = false ->
  SFltb x y = true \/ SFleb y x = true.
Proof.
  intros Hx Hy. unfold SFltb, SFleb. rewrite (SFcompare_antisym x y).
  destruct (SFcompare x y) as [[]|] eqn:E; cbn; auto.
  apply SFcompare_none in E. destruct E; congruence.
Qed.

Lemma SFleb_trans x y z :
  SFleb x y = true -> SFleb y z = true -> SFleb x z = true.
Proof.
  unfold SFleb. sf_cases; cmp_cases; subst; try discriminate; try reflexivity; try lia.
Qed.

Lemma SFltb_leb_trans x y z :
  SFltb x y = true -> SFleb y z = true -> SFltb x z = true.
Proof.
  unfold SFleb, SFltb. sf_cases; cmp_cases; subst; try discriminate; try reflexivity; try lia.
Qed.

Lemma SFleb_ltb_trans x y z :
  SFleb x y = true -> SFltb y z = true -> SFltb x z = true.
Proof.
  unfold SFleb, SFltb. sf_cases; cmp_cases; subst; try discriminate; try reflexivity; try lia.
Qed.

(** *** Rounding a value that needs no rounding

    A positive mantissa of exactly 53 bits with an exponent in range is a
    binary64 value already: rounding returns it unchanged. *)
Lemma digits2_pos_size p : digits2_pos p = Pos.size p.
Proof. induction p; cbn; congruence. Qed.

Lemma pow2_bracket (s k : Z) :
  0 < s -> k < 2 ^ s -> 2 ^ s <= 2 * k -> 2 ^ 52 <= k < 2 ^ 53 -> s = 53.
Proof.
  intros Hs Hgt Hle [Hlo Hhi].
  destruct (Z.lt_trichotomy s 53) as [Hlt|[E|Hgt']]; [exfalso|exact E|exfalso].
  - assert (H : 2 ^ s <= 2 ^ 52) by (apply Z.pow_le_mono_r; lia).
    revert Hgt Hle H. generalize (2 ^ s). clear s Hs Hlt. intros; lia.
  - assert (H : 2 ^ 54 <= 2 ^ s) by (apply Z.pow_le_mono_r; lia).
    revert Hgt Hle H. generalize (2 ^ s). clear s Hs Hgt'. intros; lia.
Qed.

Lemma digits2_pos_53 (k : positive) :
  2 ^ 52 <= Zpos k < 2 ^ 53 -> digits2_pos k = 53%positive.
Proof.
  intros Hk. rewrite digits2_pos_size.
  pose proof (Pos.size_gt k) as Hgt. pose proof (Pos.size_le k) as Hle.
  apply Pos2Z.pos_lt_pos in Hgt. apply Pos2Z.pos_le_pos in Hle.
  rewrite Pos2Z.inj_pow in Hgt, Hle. rewrite (Pos2Z.inj_xO k) in Hle.
  assert (E : Z.pos (Pos.size k) = 53); [|now injection E].
  apply (pow2_bracket _ (Z.pos k)); auto; lia.
Qed.

Lemma digits2_pos_le_53 (n : positive) :
  Zpos n < 2 ^ 53 -> Zpos (digits2_pos n) <= 53.
Proof.
  intros Hn. rewrite digits2_pos_size.
  pose proof (Pos.size_le n) as Hle. apply Pos2Z.pos_le_pos in Hle.
  rewrite Pos2Z.inj_pow, (Pos2Z.inj_xO n) in Hle.
  destruct (Z.le_gt_cases (Z.pos (Pos.size n)) 53) as [H|H]; [exact H|exfalso].
  assert (H54 : 2 ^ 54 <= 2 ^ Z.pos (Pos.size n))
    by (apply Z.pow_le_mono_r; lia).
  revert Hle H54. generalize (2 ^ Z.pos (Pos.size n)). intros; lia.
Qed.

Lemma digits2_pos_shift (n p : positive) :
  digits2_pos (Pos.iter xO n p) = (digits2_pos n + p)%positive.
Proof.
  induction p as [|p IH] using Pos.peano_ind.
  - cbn. lia.
  - rewrite Pos.iter_succ. cbn [digits2_pos]. rewrite IH. lia.
Qed.

Lemma iter_xO_value (n p : positive) :
  Zpos (Pos.iter xO n p) = Zpos n * 2 ^ Zpos p.
Proof.
  induction p as [|p IH] using Pos.peano_ind.
  - cbn. lia.
  - rewrite Pos.iter_succ, Pos2Z.inj_xO, IH, Pos2Z.inj_succ, Z.pow_succ_r by lia.
    ring.
Qed.

Lemma fexp_53 e : -1074 <= e -> fexp prec emax (53 + e) = e.
Proof. unfold fexp, SpecFloat.emin, emax, prec. lia. Qed.

Lemma binary_round_aux_exact (s : bool) (k : positive) (e : Z) :
  digits2_pos k = 53%positive -> -1074 <= e <= 971 ->
  binary_round_aux prec emax s (Zpos k) e loc_Exact = S754_finite s k e.
Proof.
  intros Hd He. pose proof (fexp_53 e (proj1 He)) as Hf.
  unfold binary_round_aux, shr_fexp. cbn [Zdigits2]. rewrite Hd, Hf, Z.sub_diag.
  cbn [shr shr_record_of_loc loc_of_shr_record shr_m round_nearest_even Zdigits2].
  rewrite Hd, Hf, Z.sub_diag. cbn [shr shr_record_of_loc shr_m].
  destruct (Z.leb_spec e (emax - prec)) as [_|H]; [reflexivity|].
  unfold emax, prec in H. lia.
Qed.

Lemma binary_round_exact (k : positive) (e : Z) :
  2 ^ 52 <= Zpos k < 2 ^ 53 -> -1074 <= e <= 971 ->
  binary_round prec emax false k e = S754_finite false k e.
Proof.
  intros Hk He. pose proof (digits2_pos_53 k Hk) as Hd.
  unfold binary_round. rewrite Hd, (fexp_53 e (proj1 He)).
  unfold shl_align. rewrite Z.sub_diag.
  now apply binary_round_aux_exact.
Qed.

(** An integer below [2^53] in absolute value is a binary64 value: rounding
    it only moves its leading bit to the top of the mantissa. *)
Lemma binary_round_small (s : bool) (n : positive) :
  Zpos n < 2 ^ 53 ->
  exists m e, binary_round prec emax s n 0 = S754_finite s m e /\
              valid_binary (S754_finite s m e) = true /\
              e <= 0 /\ Zpos m = Zpos n * 2 ^ (- e).
Proof.
  intros Hn. pose proof (digits2_pos_le_53 n Hn) as Hd.
  unfold binary_round. rewrite Z.add_0_r.
  assert (Hf : fexp prec emax (Z.pos (digits2_pos n)) = Z.pos (digits2_pos n) - 53).
  { unfold fexp, SpecFloat.emin, emax, prec. lia. }
  rewrite Hf. unfold shl_align. rewrite Z.sub_0_r.
  destruct (Z.pos (digits2_pos n) - 53) as [|q|q] eqn:E; [| lia |].
  - assert (H53 : digits2_pos n = 53%positive) by lia.
    exists n, 0. rewrite binary_round_aux_exact by (auto; lia).
    split; [reflexivity|]. split; [|split; [lia|cbn; lia]].
    unfold valid_binary, bounded, canonical_mantissa. rewrite H53. reflexivity.
  - assert (H53 : digits2_pos (Pos.iter xO n q) = 53%positive).
    { rewrite digits2_pos_shift. lia. }
    exists (Pos.iter xO n q), (Z.neg q).
    rewrite binary_round_aux_exact by (auto; lia).
    split; [reflexivity|]. split; [|split; [lia|apply iter_xO_value]].
    unfold valid_binary, bounded, canonical_mantissa. rewrite H53.
    rewrite fexp_53 by lia. rewrite Z.eqb_refl. cbn [andb].
    apply Z.leb_le. unfold emax, prec. lia.
Qed.

(** *** Where a NaN can come from

    Rounding a mantissa that is not negative never gives a NaN; so the
    arithmetic on values that are not NaN gives a NaN only from [0 / 0],
    [inf / inf], [0 * inf] and [inf - inf]. *)
Lemma shr_1_nonneg mrs : 0 <= shr_m mrs -> 0 <= shr_m (shr_1 mrs).
Proof.
  destruct mrs as [m r s]. destruct m as [|[p|p|]|p]; cbn; intros H; lia.
Qed.

Lemma iter_shr_1_nonneg p : forall mrs,
  0 <= shr_m mrs -> 0 <= shr_m (iter_pos shr_1 p mrs).
Proof.
  induction p as [p IH|p IH|]; intros mrs H; cbn [iter_pos].
  - apply IH, IH, shr_1_nonneg, H.
  - apply IH, IH, H.
  - apply shr_1_nonneg, H.
Qed.

Lemma shr_fexp_nonneg m e l :
  0 <= m -> 0 <= shr_m (fst (shr_fexp prec emax m e l)).
Proof.
  intros H. unfold shr_fexp, shr.
  assert (H0 : 0 <= shr_m (shr_record_of_loc m l)) by (destruct l as [|[]]; exact H).
  destruct (fexp prec emax (Zdigits2 m + e) - e); cbn [fst]; auto.
  now apply iter_shr_1_nonneg.
Qed.

Lemma round_nearest_even_nonneg m l : 0 <= m -> 0 <= round_nearest_even m l.
Proof.
  intros H. destruct l as [|[]]; cbn; try lia. destruct (Z.even m); lia.
Qed.

Lemma binary_round_aux_not_nan s m e l :
  0 <= m -> is_nanSF (binary_round_aux prec emax s m e l) = false.
Proof.
  intros H. unfold binary_round_aux.
  pose proof (shr_fexp_nonneg m e l H) as H1.
  destruct (shr_fexp prec emax m e l) as [mrs' e']. cbn [fst] in H1.
  pose proof (shr_fexp_nonneg _ e' loc_Exact
                (round_nearest_even_nonneg _ (loc_of_shr_record mrs') H1)) as H2.
  destruct (shr_fexp prec emax _ e' loc_Exact) as [mrs'' e'']. cbn [fst] in H2.
  destruct (shr_m mrs'') as [|q|q]; try reflexivity; [|lia].
  destruct (e'' <=? emax - prec); reflexivity.
Qed.

Lemma binary_normalize_not_nan m e sz :
  is_nanSF (binary_normalize prec emax m e sz) = false.
Proof.
  destruct m as [|p|p]; cbn [binary_normalize]; try reflexivity;
    unfold binary_round;
    destruct (shl_align _ _ _) as [mz ez]; apply binary_round_aux_not_nan; lia.
Qed.

Lemma SFsub_not_nan_finite s m e y :
  is_nanSF y = false -> is_nanSF (SFsub prec emax (S754_finite s m e) y) = false.
Proof.
  destruct y as [sy|sy| |sy my ey]; cbn [SFsub is_nanSF];
    try discriminate; try reflexivity.
  intros _. apply binary_normalize_not_nan.
Qed.

Lemma SFmul_not_nan_finite x s m e :
  is_nanSF x = false -> is_nanSF (SFmul prec emax x (S754_finite s m e)) = false.
Proof.
  destruct x as [sx|sx| |sx mx ex]; cbn [SFmul is_nanSF];
    try discriminate; try reflexivity.
  intros _. apply binary_round_aux_not_nan. lia.
Qed.

Lemma SFdiv_core_binary_nonneg m1 e1 m2 e2 :
  0 <= fst (fst (SFdiv_core_binary prec emax (Zpos m1) e1 (Zpos m2) e2)).
Proof.
  unfold SFdiv_core_binary.
  set (s := _ - _ - _).
  set (m' := match s with
             | Z0 => Z.pos m1
             | Z.pos _ => Z.shiftl (Z.pos m1) s
             | Z.neg _ => 0
             end).
  assert (Hm' : 0 <= m').
  { unfold m'. destruct s; try lia. apply Z.shiftl_nonneg. lia. }
  pose proof (Z.div_pos m' (Zpos m2) Hm' ltac:(lia)) as Hq.
  unfold Z.div in Hq. destruct (Z.div_eucl m' (Z.pos m2)) as [q r]. exact Hq.
Qed.

Lemma SFdiv_not_nan_finite x s m e :
  is_nanSF x = false -> is_nanSF (SFdiv prec emax x (S754_finite s m e)) = false.
Proof.
  destruct x as [sx|sx| |sx mx ex]; cbn [SFdiv is_nanSF];
    try discriminate; try reflexivity.
  intros _. pose proof (SFdiv_core_binary_nonneg mx ex m e) as H.
  destruct (SFdiv_core_binary prec emax (Z.pos mx) ex (Z.pos m) e) as [[mz ez] lz].
  apply binary_round_aux_not_nan. exact H.
Qed.

(** [6 - l] for [l = m * 2^-51] (so [2 <= l < 4]) with a difference in
    [[2, 4)]: the subtraction is exact. *)
Lemma SFsub_6_exact (m : positive) :
  2 ^ 52 <= 13510798882111488 - Zpos m < 2 ^ 53 ->
  SFsub prec emax (S754_finite false 6755399441055744 (-50)) (S754_finite false m (-51))
  = S754_finite false (Z.to_pos (13510798882111488 - Zpos m)) (-51).
Proof.
  intros Hk. unfold SFsub.
  change (Z.min (-50) (-51)) with (-51).
  change (shl_align 6755399441055744 (-50) (-51))
    with (13510798882111488%positive, -51).
  change (shl_align m (-51) (-51)) with (m, -51).
  cbn [fst cond_Zopp].
  remember (Z.pos 13510798882111488 - Z.pos m) as k eqn:Ek.
  destruct k as [|k|k]; try (exfalso; lia).
  cbn [binary_normalize Z.to_pos]. apply binary_round_exact; lia.
Qed.

Lemma SFleb_between (mlo mhi : positive) (e : Z) (x : spec_float) :
  SFleb (S754_finite false mlo e) x = true ->
  SFleb x (S754_finite false mhi e) = true ->
  exists m, x = S754_finite false m e /\ Zpos mlo <= Zpos m <= Zpos mhi.
Proof.
  unfold SFleb.
  destruct x as [[]|[]| |[] m e']; cbn; try discriminate.
  destruct (Z.compare_spec e e'), (Z.compare_spec e' e); try discriminate; try lia.
  subst e'. change (Pos.compare_cont Eq ?a ?b) with (Pos.compare a b).
  destruct (Pos.compare_spec mlo m), (Pos.compare_spec m mhi); try discriminate;
    intros _ _; exists m; split; try reflexivity; lia.
Qed.

Lemma SFleb_same_exponent (m1 m2 : positive) (e : Z) :
  Zpos m1 <= Zpos m2 ->
  SFleb (S754_finite false m1 e) (S754_finite false m2 e) = true.
Proof.
  intros H. unfold SFleb, SFcompare. rewrite Z.compare_refl.
  change (Pos.compare_cont Eq m1 m2) with (Pos.compare m1 m2).
  destruct (Pos.compare_spec m1 m2); try reflexivity. lia.
Qed.

End Binary64.

(** ** Comparisons of Python numbers *)
Module PyFacts.
Import Binary64.

Local Open Scope float_scope.

Lemma is_nan_spec f : PrimFloat.is_nan f = is_nanSF (Prim2SF f).
Proof.
  unfold PrimFloat.is_nan. rewrite FloatAxioms.eqb_spec, SFeqb_refl. apply negb_involutive.
Qed.

Lemma ltb_leb x y : (x <? y) = true -> (x <=? y) = true.
Proof. rewrite FloatAxioms.ltb_spec, FloatAxioms.leb_spec. apply SFltb_leb. Qed.

Lemma ltb_not_leb x y : (x <? y) = true -> (y <=? x) = false.
Proof. rewrite FloatAxioms.ltb_spec, FloatAxioms.leb_spec. apply SFltb_not_leb. Qed.

Lemma leb_not_ltb x y : (x <=? y) = true -> (y <? x) = false.
Proof. rewrite FloatAxioms.ltb_spec, FloatAxioms.leb_spec. apply SFleb_not_ltb. Qed.

Lemma ltb_or_leb x y :
  PrimFloat.is_nan x = false -> PrimFloat.is_nan y = false ->
  (x <? y) = true \/ (y <=? x) = true.
Proof. rewrite !is_nan_spec, FloatAxioms.ltb_spec, FloatAxioms.leb_spec. apply SFltb_or_leb. Qed.

Lemma leb_refl x : PrimFloat.is_nan x = false -> (x <=? x) = true.
Proof.
  rewrite is_nan_spec, FloatAxioms.leb_spec. intros H. unfold SFleb.
  rewrite SFcompare_refl by exact H. reflexivity.
Qed.

Lemma eqb_not_ltb x y : (x =? y) = true -> (y <? x) = false.
Proof.
  rewrite FloatAxioms.eqb_spec, FloatAxioms.ltb_spec. unfold SFeqb, SFltb.
  rewrite (SFcompare_antisym (Prim2SF x) (Prim2SF y)).
  destruct (SFcompare (Prim2SF x) (Prim2SF y)) as [[]|]; cbn; auto; discriminate.
Qed.

Lemma leb_trans x y z : (x <=? y) = true -> (y <=? z) = true -> (x <=? z) = true.
Proof. rewrite !FloatAxioms.leb_spec. apply SFleb_trans. Qed.

Lemma ltb_leb_trans x y z : (x <? y) = true -> (y <=? z) = true -> (x <? z) = true.
Proof. rewrite !FloatAxioms.ltb_spec, FloatAxioms.leb_spec. apply SFltb_leb_trans. Qed.

Lemma leb_ltb_trans x y z : (x <=? y) = true -> (y <? z) = true -> (x <? z) = true.
Proof. rewrite !FloatAxioms.ltb_spec, FloatAxioms.leb_spec. apply SFleb_ltb_trans. Qed.

Ltac eval_Prim2SF c :=
  let v := eval vm_compute in (Prim2SF c) in change (Prim2SF c) with v.

(** Subtracting from 6 a value that is known to three decimals. *)
Lemma six_minus_log (l : float) :
  (3.1669921875 <=? l) = true -> (l <=? 3.16796875) = true ->
  (2.83203125 <=? 6 - l) = true /\ (6 - l <=? 2.8330078125) = true.
Proof.
  rewrite !FloatAxioms.leb_spec, sub_spec. unfold SF64sub.
  eval_Prim2SF 3.1669921875.
  eval_Prim2SF 3.16796875.
  eval_Prim2SF 2.83203125.
  eval_Prim2SF 2.8330078125.
  eval_Prim2SF 6.
  intros Hlo Hhi.
  destruct (SFleb_between _ _ _ _ Hlo Hhi) as (m & -> & Hm).
  assert (Hk : (2 ^ 52 <= 13510798882111488 - Zpos m < 2 ^ 53)%Z) by lia.
  rewrite (SFsub_6_exact m Hk).
  split; apply SFleb_same_exponent; lia.
Qed.

(** [float(n)] is [n] itself below [2^53]: its mantissa and exponent give
    [|n|] back. *)
Lemma float_of_int_exact (z : Z) :
  z <> 0%Z -> (Z.abs z < 2 ^ 53)%Z ->
  exists m e,
    Prim2SF (float_of_int z) = S754_finite (z <? 0)%Z m e /\
    (e <= 0)%Z /\ (Zpos m = Z.abs z * 2 ^ (- e))%Z.
Proof.
  intros Hz Hlt. unfold float_of_int.
  destruct z as [|n|n]; [contradiction| |]; cbn [binary_normalize].
  - destruct (binary_round_small false n Hlt) as (m & e & -> & Hv & He & Hm).
    exists m, e. split; [now apply Prim2SF_SF2Prim|]. now split.
  - destruct (binary_round_small true n Hlt) as (m & e & -> & Hv & He & Hm).
    exists m, e. split; [now apply Prim2SF_SF2Prim|]. now split.
Qed.

Lemma float_of_int_not_nan (z : Z) :
  (Z.abs z < 2 ^ 53)%Z -> PrimFloat.is_nan (float_of_int z) = false.
Proof.
  intros Hlt. destruct (Z.eq_dec z 0) as [->|Hz]; [reflexivity|].
  rewrite is_nan_spec.
  destruct (float_of_int_exact z Hz Hlt) as (m & e & -> & _). reflexivity.
Qed.

Lemma div_int_not_nan (x : float) (n : Z) :
  n <> 0%Z -> (Z.abs n < 2 ^ 53)%Z ->
  PrimFloat.is_nan x = false -> PrimFloat.is_nan (x / float_of_int n) = false.
Proof.
  intros Hn Hlt. rewrite !is_nan_spec, div_spec.
  destruct (float_of_int_exact n Hn Hlt) as (m & e & -> & _).
  apply SFdiv_not_nan_finite.
Qed.

Lemma mul_int_not_nan (x : float) (n : Z) :
  n <> 0%Z -> (Z.abs n < 2 ^ 53)%Z ->
  PrimFloat.is_nan x = false -> PrimFloat.is_nan (x * float_of_int n) = false.
Proof.
  intros Hn Hlt. rewrite !is_nan_spec, mul_spec.
  destruct (float_of_int_exact n Hn Hlt) as (m & e & -> & _).
  apply SFmul_not_nan_finite.
Qed.

Lemma int_sub_not_nan (n : Z) (y : float) :
  n <> 0%Z -> (Z.abs n < 2 ^ 53)%Z ->
  PrimFloat.is_nan y = false -> PrimFloat.is_nan (float_of_int n - y) = false.
Proof.
  intros Hn Hlt. rewrite !is_nan_spec, sub_spec.
  destruct (float_of_int_exact n Hn Hlt) as (m & e & -> & _).
  apply SFsub_not_nan_finite.
Qed.

Local Close Scope float_scope.

(** The same facts for [int]s and [float]s compared as Python compares them. *)
Lemma lt_le x y : lt x y = true -> le x y = true.
Proof.
  destruct x, y; cbn; try apply ltb_leb. rewrite Z.ltb_lt, Z.leb_le. lia.
Qed.

Lemma lt_not_le x y : lt x y = true -> le y x = false.
Proof.
  destruct x, y; cbn; try apply ltb_not_leb. rewrite Z.ltb_lt, Z.leb_gt. lia.
Qed.

Lemma le_not_lt x y : le x y = true -> lt y x = false.
Proof.
  destruct x, y; cbn; try apply leb_not_ltb. rewrite Z.leb_le, Z.ltb_ge. lia.
Qed.

(** [min] and [max] return one of their arguments, and stay on the side of
    the first one. *)
Lemma min_cases a b :
  (lt b a = true /\ min a b = b) \/ (lt b a = false /\ min a b = a).
Proof. unfold min. destruct (lt b a); auto. Qed.

Lemma max_cases a b :
  (gt b a = true /\ max a b = b) \/ (gt b a = false /\ max a b = a).
Proof. unfold max. destruct (gt b a); auto. Qed.

Lemma min_int_le (n : Z) (b : num) : le (min (PyInt n) b) (PyInt n) = true.
Proof.
  destruct (min_cases (PyInt n) b) as [[H ->]|[_ ->]].
  - now apply lt_le.
  - cbn. apply Z.leb_refl.
Qed.

Lemma max_int_ge (n : Z) (b : num) : le (PyInt n) (max (PyInt n) b) = true.
Proof.
  destruct (max_cases (PyInt n) b) as [[H ->]|[_ ->]].
  - now apply lt_le.
  - cbn. apply Z.leb_refl.
Qed.

(** Against an [int] threshold.  The side conditions on [float_of_int] are
    closed and hold by evaluation for every literal of the script. *)
Lemma lt_int_or_ge (r : num) (n : Z) :
  is_nan r = false -> PrimFloat.is_nan (float_of_int n) = false ->
  lt r (PyInt n) = true \/ le (PyInt n) r = true.
Proof.
  destruct r as [z|f]; cbn; intros Hr Hn.
  - rewrite Z.ltb_lt, Z.leb_le. lia.
  - now apply ltb_or_leb.
Qed.

Lemma gt_int_or_le (r : num) (n : Z) :
  is_nan r = false -> PrimFloat.is_nan (float_of_int n) = false ->
  gt r (PyInt n) = true \/ le r (PyInt n) = true.
Proof.
  unfold gt. destruct r as [z|f]; cbn; intros Hr Hn.
  - rewrite Z.ltb_lt, Z.leb_le. lia.
  - now apply ltb_or_leb.
Qed.

Lemma le_int_not_gt (r : num) (a b : Z) :
  a <= b -> (float_of_int a <=? float_of_int b)%float = true ->
  le r (PyInt a) = true -> gt r (PyInt b) = false.
Proof.
  unfold gt. destruct r as [z|f]; cbn; intros Hab Hf H.
  - apply Z.leb_le in H. apply Z.ltb_ge. lia.
  - apply leb_not_ltb. now apply (leb_trans _ (float_of_int a)).
Qed.

Lemma lt_int_not_ge (r : num) (a b : Z) :
  a <= b -> (float_of_int a <=? float_of_int b)%float = true ->
  lt r (PyInt a) = true -> ge r (PyInt b) = false.
Proof.
  unfold ge. destruct r as [z|f]; cbn; intros Hab Hf H.
  - apply Z.ltb_lt in H. apply Z.leb_gt. lia.
  - apply ltb_not_leb. now apply (ltb_leb_trans _ (float_of_int a)).
Qed.

End PyFacts.

Import PyFacts.

Lemma truediv_int_nonzero (x : num) (n : Z) :
  n <> 0 -> truediv x (PyInt n) = Ok (PyFloat (to_float x / float_of_int n)).
Proof.
  intros Hn. unfold truediv, is_zero.
  destruct (Z.eqb_spec n 0) as [E|_]; [contradiction|reflexivity].
Qed.

(** ** The operations metrics *)

(** C1.  With at least one doctor, one patient per hour, one bed and one
    shift, and a consultation time that is not negative, all of them integers
    that [float] holds exactly (every value the sliders deliver is one), the
    calculations of the dashboard return: patients per doctor, the binary64
    quotient [patients / doctors]; doctor utilization,
    [min(100, ppd * consult / 60 * 100)], which is the computed float when it
    is below 100 and the integer 100 otherwise; waiting time,
    [max(0, ppd * consult - 60)], which is the computed float when it is
    above 0 and the integer 0 otherwise; bed utilization,
    [min(100, patients / beds * 100)], capped in the same way; throughput,
    the integer [patients * shifts].  For 5 doctors, 30 patients per hour and
    10 minutes they are 6, 100 and 0. *)
Theorem operations_metrics_formulas (d p c b s : Z) :
  exact_int d -> exact_int p -> exact_int c -> exact_int b ->
  1 <= d -> 1 <= p -> 0 <= c -> 1 <= b -> 1 <= s ->
  let ppd := (float_of_int p / float_of_int d)%float in
  let du := (ppd * float_of_int c / 60 * 100)%float in
  let wt := (ppd * float_of_int c - 60)%float in
  let bu := (float_of_int p / float_of_int b * 100)%float in
  (exists v, tab1 d p c b s = Ok v /\
     v_patients_per_doctor v = PyFloat ppd /\
     v_doctor_utilization v =
       (if (du <? 100)%float then PyFloat du else PyInt 100) /\
     v_waiting_time v = (if (0 <? wt)%float then PyFloat wt else PyInt 0) /\
     v_bed_utilization v =
       (if (bu <? 100)%float then PyFloat bu else PyInt 100) /\
     v_throughput v = PyInt (p * s)) /\
  (exists v, tab1 5 30 10 b s = Ok v /\
     v_patients_per_doctor v = PyFloat 6 /\
     v_doctor_utilization v = PyInt 100 /\
     v_waiting_time v = PyInt 0).
Proof.
  intros _ _ _ _ Hd Hp Hc Hb Hs ppd du wt bu. subst ppd du wt bu.
  assert (Hbed : forall q, bed_utilization q b =
            Ok (min (PyInt 100) (PyFloat (float_of_int q / float_of_int b * 100)))).
  { intros q. unfold bed_utilization. rewrite truediv_int_nonzero by lia. reflexivity. }
  split.
  - unfold tab1, patients_per_doctor.
    rewrite truediv_int_nonzero by lia. cbn [bind to_float].
    unfold doctor_utilization. rewrite truediv_int_nonzero by lia.
    cbn [bind]. rewrite Hbed. cbn [bind].
    eexists. split; [reflexivity|]. cbn [v_patients_per_doctor v_doctor_utilization
      v_waiting_time v_bed_utilization v_throughput].
    repeat split.
  - unfold tab1. rewrite Hbed.
    change (patients_per_doctor 30 5) with (Ok (PyFloat 6)). cbn [bind].
    change (doctor_utilization (PyFloat 6) 10) with (Ok (PyInt 100)). cbn [bind].
    change (waiting_time (PyFloat 6) 10) with (PyInt 0).
    eexists. split; [reflexivity|]. repeat split.
Qed.

Lemma operations_metrics_formulas_witness :
  (exists v, tab1 4 25 12 10 2 = Ok v /\
     v_patients_per_doctor v = PyFloat 6.25 /\
     v_doctor_utilization v = PyInt 100 /\
     v_waiting_time v = PyFloat 15 /\
     v_bed_utilization v = PyInt 100 /\
     v_throughput v = PyInt 50) /\
  (exists v, tab1 5 10 10 20 3 = Ok v /\
     v_patients_per_doctor v = PyFloat 2 /\
     v_doctor_utilization v = PyFloat 0x1.0aaaaaaaaaaaap+5 /\
     v_waiting_time v = PyInt 0 /\
     v_bed_utilization v = PyFloat 50 /\
     v_throughput v = PyInt 30).
Proof.
  split.
  - destruct (operations_metrics_formulas 4 25 12 10 2) as [[v H] _];
      try reflexivity; try lia.
    exists v. exact H.
  - destruct (operations_metrics_formulas 5 10 10 20 3) as [[v H] _];
      try reflexivity; try lia.
    exists v. exact H.
Defined.

(** ** Return on investment *)

(** C3.  For a positive investment, savings that are not negative and at
    least one year, the investment and the numerator
    [savings * years - investment] being integers that [float] holds exactly
    (as they are for every input of the widgets), the ROI is the binary64
    value of [((savings * years - investment) / investment) * 100], the
    numerator being computed on integers.  For 500000, 100000 and 3 years it
    is -40.0. *)
Theorem roi_formula (investment annual_savings years : Z) :
  exact_int investment ->
  exact_int (annual_savings * years - investment) ->
  0 < investment -> 0 <= annual_savings -> 1 <= years ->
  roi investment annual_savings years =
    Ok (PyFloat (float_of_int (annual_savings * years - investment)
                 / float_of_int investment * 100)) /\
  roi 500000 100000 3 = Ok (PyFloat (-40)).
Proof.
  intros _ _ Hi Ha Hy. split; [|reflexivity].
  unfold roi. rewrite truediv_int_nonzero by lia. reflexivity.
Qed.

Lemma roi_formula_witness :
  roi 200000 150000 2 = Ok (PyFloat 50).
Proof.
  etransitivity;
    [apply (roi_formula 200000 150000 2); try reflexivity; lia|reflexivity].
Defined.

Lemma roi_is_a_number (investment annual_savings years : Z) :
  delivers investment_input investment ->
  delivers annual_savings_input annual_savings ->
  delivers years_slider years ->
  exists r, roi investment annual_savings years = Ok r /\ is_nan r = false.
Proof.
  unfold delivers. cbn [min_value max_value investment_input
    annual_savings_input years_slider]. intros Hi Ha Hy.
  unfold roi. rewrite truediv_int_nonzero by lia. cbn [bind].
  eexists. split; [reflexivity|]. cbn [mul sub to_float is_nan].
  assert (Hk : Z.abs (annual_savings * years - investment) < 2 ^ 53).
  { assert (0 <= annual_savings * years <= 50000000) by nia. lia. }
  apply mul_int_not_nan; [lia|reflexivity|].
  apply div_int_not_nan; [lia|lia|].
  now apply float_of_int_not_nan.
Qed.

(** C4.  The ROI alert is a three-way classification: above 50 it is the
    success box (excellent), above 0 and at most 50 the warning box
    (moderate), at most 0 the error box (negative, not feasible).  Every
    number falls in one of the three bands, each alert is shown in its band
    only, and the ROI computed from the inputs of the widgets is a number
    (never a NaN). *)
Theorem roi_classification (r : num) :
  (gt r (PyInt 50) = true -> roi_alert r = roi_excellent) /\
  (gt r (PyInt 0) = true /\ le r (PyInt 50) = true -> roi_alert r = roi_moderate) /\
  (le r (PyInt 0) = true -> roi_alert r = roi_negative) /\
  (is_nan r = false ->
     gt r (PyInt 50) = true \/
     (gt r (PyInt 0) = true /\ le r (PyInt 50) = true) \/
     le r (PyInt 0) = true) /\
  (roi_alert r = roi_excellent -> gt r (PyInt 50) = true) /\
  (roi_alert r = roi_moderate -> gt r (PyInt 0) = true /\ gt r (PyInt 50) = false) /\
  (roi_alert r = roi_negative -> gt r (PyInt 0) = false /\ gt r (PyInt 50) = false) /\
  (forall investment annual_savings years,
     delivers investment_input investment ->
     delivers annual_savings_input annual_savings ->
     delivers years_slider years ->
     exists r', roi investment annual_savings years = Ok r' /\ is_nan r' = false).
Proof.
  assert (Hdistinct : roi_excellent <> roi_moderate /\ roi_excellent <> roi_negative
                      /\ roi_moderate <> roi_negative) by (repeat split; discriminate).
  destruct Hdistinct as (Hem & Hen & Hmn).
  unfold roi_alert.
  split; [|split; [|split; [|split; [|split; [|split; [|split]]]]]].
  - intros ->. reflexivity.
  - intros [H0 H50]. apply le_not_lt in H50. fold (gt r (PyInt 50)) in H50.
    now rewrite H50, H0.
  - intros H. rewrite (le_int_not_gt r 0 50), (le_int_not_gt r 0 0); auto; lia.
  - intros Hr.
    destruct (gt_int_or_le r 50 Hr eq_refl) as [H|H]; [now left|right].
    destruct (gt_int_or_le r 0 Hr eq_refl) as [H0|H0]; [left|right]; auto.
  - destruct (gt r (PyInt 50)); [reflexivity|].
    destruct (gt r (PyInt 0)); intros E; congruence.
  - destruct (gt r (PyInt 50)); [intros E; congruence|].
    destruct (gt r (PyInt 0)); intros E; [split; reflexivity|congruence].
  - destruct (gt r (PyInt 50)); [intros E; congruence|].
    destruct (gt r (PyInt 0)); intros E; [congruence|split; reflexivity].
  - apply roi_is_a_number.
Qed.

Lemma roi_classification_witness :
  roi_alert (PyFloat (-40)) = roi_negative /\ roi_alert (PyFloat 50) = roi_moderate.
Proof.
  split.
  - apply (roi_classification (PyFloat (-40))). reflexivity.
  - apply (roi_classification (PyFloat 50)). split; reflexivity.
Defined.

(** ** Advisory messages *)

(** C6.  The two advisory messages are decided by the thresholds alone: the
    doctors' message is the overutilization warning exactly when the doctor
    utilization is above 90 and the optimal message otherwise; the beds'
    message is the overflow warning exactly when the bed utilization is above
    85 and the healthy message otherwise.  The dashboard shows the messages
    of the utilizations it computed. *)
Theorem advisory_thresholds (du bu : num) :
  (doctor_msg du = doctor_overutilized <-> gt du (PyInt 90) = true) /\
  (doctor_msg du = doctor_optimal <-> gt du (PyInt 90) = false) /\
  (bed_msg bu = bed_overflow <-> gt bu (PyInt 85) = true) /\
  (bed_msg bu = bed_healthy <-> gt bu (PyInt 85) = false) /\
  (forall d p c b s v, tab1 d p c b s = Ok v ->
     v_doctor_msg v = doctor_msg (v_doctor_utilization v) /\
     v_bed_msg v = bed_msg (v_bed_utilization v)).
Proof.
  assert (Hd : doctor_overutilized <> doctor_optimal) by discriminate.
  assert (Hb : bed_overflow <> bed_healthy) by discriminate.
  unfold doctor_msg, bed_msg.
  split; [|split; [|split; [|split]]].
  - destruct (gt du (PyInt 90)); split; congruence.
  - destruct (gt du (PyInt 90)); split; congruence.
  - destruct (gt bu (PyInt 85)); split; congruence.
  - destruct (gt bu (PyInt 85)); split; congruence.
  - intros d p c b s v. unfold tab1.
    destruct (patients_per_doctor p d) as [ppd|]; [cbn [bind]|discriminate].
    destruct (doctor_utilization ppd c) as [u|]; [cbn [bind]|discriminate].
    destruct (bed_utilization p b) as [w|]; [cbn [bind]|discriminate].
    intros E. injection E as <-. split; reflexivity.
Qed.

Lemma advisory_thresholds_witness :
  doctor_msg (PyFloat 90) = doctor_optimal /\ bed_msg (PyFloat 85.5) = bed_overflow.
Proof.
  split.
  - apply (advisory_thresholds (PyFloat 90) (PyInt 0)). reflexivity.
  - apply (advisory_thresholds (PyInt 0) (PyFloat 85.5)). reflexivity.
Defined.

(** ** The declared domains, by evaluation *)

Lemma forall_from_spec lo n f :
  forall_from lo n f = true ->
  forall z, lo <= z < lo + Z.of_nat n -> f z = true.
Proof.
  revert lo. induction n as [|n IH]; intros lo H z Hz; [lia|].
  cbn [forall_from] in H. apply andb_true_iff in H as [H0 H1].
  destruct (Z.eq_dec z lo) as [->|Hne]; [exact H0|].
  apply (IH (lo + 1) H1). lia.
Qed.

Lemma forall_widget_spec w f :
  forall_widget w f = true -> forall z, delivers w z -> f z = true.
Proof.
  unfold forall_widget, forall_between, delivers.
  intros H z Hz. apply (forall_from_spec _ _ _ H). lia.
Qed.

Lemma is_int_spec n x : is_int n x = true -> x = PyInt n.
Proof.
  destruct x as [z|f]; cbn; [|discriminate].
  intros H. apply Z.eqb_eq in H. now subst.
Qed.

Lemma doctor_figures_all :
  forall_widget num_doctors_slider (fun d =>
  forall_widget num_patients_per_hour_slider (fun p =>
  forall_widget consult_time_slider (fun c => doctor_figures_ok d p c))) = true.
Proof. vm_compute. reflexivity. Qed.

Lemma bed_figures_all :
  forall_widget num_patients_per_hour_slider (fun p =>
  forall_widget num_beds_slider (fun b => bed_figures_ok p b)) = true.
Proof. vm_compute. reflexivity. Qed.

Lemma doctor_figures (d p c : Z) :
  1 <= d <= 20 -> 10 <= p <= 100 -> 5 <= c <= 30 ->
  doctor_figures_ok d p c = true.
Proof.
  intros Hd Hp Hc.
  pose proof (forall_widget_spec _ _ doctor_figures_all d Hd) as H.
  cbv beta in H.
  pose proof (forall_widget_spec _ _ H p Hp) as H1. cbv beta in H1.
  exact (forall_widget_spec _ _ H1 c Hc).
Qed.

Lemma bed_figures (p b : Z) :
  10 <= p <= 100 -> 5 <= b <= 100 -> bed_figures_ok p b = true.
Proof.
  intros Hp Hb.
  pose proof (forall_widget_spec _ _ bed_figures_all p Hp) as H. cbv beta in H.
  exact (forall_widget_spec _ _ H b Hb).
Qed.

(** C7.  For 1 to 20 doctors, 10 to 100 patients per hour and consultations
    of 5 to 30 minutes, the doctor utilization is computed and lies between 0
    and 100, both included. *)
Theorem doctor_utilization_range (d p c : Z) :
  1 <= d <= 20 -> 10 <= p <= 100 -> 5 <= c <= 30 ->
  exists ppd du,
    patients_per_doctor p d = Ok ppd /\
    doctor_utilization ppd c = Ok du /\
    le (PyInt 0) du = true /\ le du (PyInt 100) = true.
Proof.
  intros Hd Hp Hc. pose proof (doctor_figures d p c Hd Hp Hc) as H.
  unfold doctor_figures_ok in H.
  destruct (patients_per_doctor p d) as [ppd|] eqn:Eppd; [|discriminate].
  destruct (doctor_utilization ppd c) as [du|] eqn:Edu; [|discriminate].
  apply andb_true_iff in H as [H _]. apply andb_true_iff in H as [H0 H100].
  exists ppd, du. repeat split; assumption.
Qed.

Lemma doctor_utilization_range_witness :
  exists ppd du,
    patients_per_doctor 10 20 = Ok ppd /\
    doctor_utilization ppd 5 = Ok du /\
    le (PyInt 0) du = true /\ le du (PyInt 100) = true.
Proof. apply (doctor_utilization_range 20 10 5); lia. Defined.

(** C8.  For 10 to 100 patients per hour and 5 to 100 beds, the bed
    utilization is computed and lies between 0 and 100, both included. *)
Theorem bed_utilization_range (p b : Z) :
  10 <= p <= 100 -> 5 <= b <= 100 ->
  exists bu,
    bed_utilization p b = Ok bu /\
    le (PyInt 0) bu = true /\ le bu (PyInt 100) = true.
Proof.
  intros Hp Hb. pose proof (bed_figures p b Hp Hb) as H.
  unfold bed_figures_ok in H.
  destruct (bed_utilization p b) as [bu|] eqn:Ebu; [|discriminate].
  apply andb_true_iff in H as [H0 H100]. exists bu. repeat split; assumption.
Qed.

Lemma bed_utilization_range_witness :
  exists bu,
    bed_utilization 10 100 = Ok bu /\
    le (PyInt 0) bu = true /\ le bu (PyInt 100) = true.
Proof. apply (bed_utilization_range 10 100); lia. Defined.

(** C9.  On the declared domains the waiting time is computed and is never
    negative.  (It is [max(0, _)], which is at least 0 whatever the second
    argument is.) *)
Theorem waiting_time_nonneg (d p c : Z) :
  1 <= d <= 20 -> 10 <= p <= 100 -> 5 <= c <= 30 ->
  exists ppd,
    patients_per_doctor p d = Ok ppd /\
    le (PyInt 0) (waiting_time ppd c) = true /\
    lt (waiting_time ppd c) (PyInt 0) = false.
Proof.
  intros Hd Hp Hc. unfold patients_per_doctor.
  rewrite truediv_int_nonzero by lia. eexists. split; [reflexivity|].
  assert (H : le (PyInt 0) (waiting_time (PyFloat (to_float (PyInt p) / float_of_int d)) c) = true)
    by apply max_int_ge.
  split; [exact H|]. now apply le_not_lt.
Qed.

Lemma waiting_time_nonneg_witness :
  exists ppd,
    patients_per_doctor 100 1 = Ok ppd /\
    le (PyInt 0) (waiting_time ppd 30) = true /\
    lt (waiting_time ppd 30) (PyInt 0) = false.
Proof. apply (waiting_time_nonneg 1 100 30); lia. Defined.

(** C10.  On the declared domains, a waiting time above 0 comes with a doctor
    utilization that is exactly 100 (the integer of the cap): a waiting time
    that is not 0 never goes with a utilization below 100. *)
Theorem waiting_implies_full_utilization (d p c : Z) :
  1 <= d <= 20 -> 10 <= p <= 100 -> 5 <= c <= 30 ->
  exists ppd du,
    patients_per_doctor p d = Ok ppd /\
    doctor_utilization ppd c = Ok du /\
    (gt (waiting_time ppd c) (PyInt 0) = true -> du = PyInt 100) /\
    (lt du (PyInt 100) = true -> waiting_time ppd c = PyInt 0).
Proof.
  intros Hd Hp Hc. pose proof (doctor_figures d p c Hd Hp Hc) as H.
  unfold doctor_figures_ok in H.
  destruct (patients_per_doctor p d) as [ppd|] eqn:Eppd; [|discriminate].
  destruct (doctor_utilization ppd c) as [du|] eqn:Edu; [|discriminate].
  apply andb_true_iff in H as [_ H].
  exists ppd, du. split; [reflexivity|]. split; [exact Edu|]. split.
  - intros Hw. rewrite Hw in H. now apply is_int_spec.
  - intros Hlt.
    destruct (gt (waiting_time ppd c) (PyInt 0)) eqn:Hw.
    + apply is_int_spec in H. subst du. discriminate.
    + unfold waiting_time in *.
      destruct (max_cases (PyInt 0)
                  (sub (mul ppd (PyInt c)) (PyInt 60))) as [[Hy E]|[_ E]];
        rewrite E in *; [congruence|reflexivity].
Qed.

Lemma waiting_implies_full_utilization_witness :
  exists ppd du,
    patients_per_doctor 10 3 = Ok ppd /\
    doctor_utilization ppd 30 = Ok du /\
    (gt (waiting_time ppd 30) (PyInt 0) = true -> du = PyInt 100) /\
    (lt du (PyInt 100) = true -> waiting_time ppd 30 = PyInt 0).
Proof. apply (waiting_implies_full_utilization 3 10 30); lia. Defined.

(** ** Six Sigma *)

Lemma dpmo_sign_all : forall_widget defects_input dpmo_sign_ok = true.
Proof. vm_compute. reflexivity. Qed.

Lemma dpmo_is_value (defects : Z) : dpmo defects = Ok (PyFloat (dpmo_value defects)).
Proof. reflexivity. Qed.

Lemma sigma_level_positive (log10 : float -> float) (d : float) :
  (0 <? d)%float = true ->
  sigma_level log10 (PyFloat d) =
    Ok (PyFloat (6 - log10 (d / lit_3_4))%float, [(d / lit_3_4)%float]).
Proof.
  intros Hd. unfold sigma_level, gt, lt, to_float.
  change (float_of_int 0) with 0%float. rewrite Hd. reflexivity.
Qed.

Lemma sigma_level_zero (log10 : float -> float) (d : float) :
  (d =? 0)%float = true -> sigma_level log10 (PyFloat d) = Ok (PyInt 6, []).
Proof.
  intros Hd. unfold sigma_level, gt, lt, to_float.
  change (float_of_int 0) with 0%float.
  rewrite (eqb_not_ltb _ _ Hd). reflexivity.
Qed.



Lemma sigma_is_a_number (log10 : float -> float) (defects : Z) :
  0 <= defects <= 1000 ->
  exists d s calls,
    six_sigma log10 defects = Ok (d, s, calls) /\
    ((forall x, In x calls -> PrimFloat.is_nan (log10 x) = false) ->
     is_nan s = false).
Proof.
  intros Hdef.
  pose proof (forall_widget_spec _ _ dpmo_sign_all defects Hdef) as H.
  unfold dpmo_sign_ok in H. cbv zeta in H.
  apply andb_true_iff in H as [Hsign _]. apply orb_true_iff in Hsign.
  unfold six_sigma. rewrite dpmo_is_value. cbn [bind].
  destruct Hsign as [Hpos|Hz].
  - rewrite (sigma_level_positive log10 _ Hpos). cbn [bind fst snd].
    do 3 eexists. split; [reflexivity|]. intros Hlog. cbn [is_nan].
    apply (int_sub_not_nan 6); [lia|reflexivity|].
    apply Hlog. now left.
  - rewrite (sigma_level_zero log10 _ Hz). cbn [bind fst snd].
    do 3 eexists. split; [reflexivity|]. reflexivity.
Qed.

(** C5.  The sigma alert is a four-band classification: at 5 and above the
    success box (world-class), from 4 to below 5 the info box (good), from 3
    to below 4 the warning box (moderate), below 3 the error box (poor).
    Every number falls in one of the bands, and the level computed from the
    input of the widget is a number as long as the logarithm returns one.
    For 50 defects the DPMO is 5000; with a logarithm that is right to three
    decimals at [5000 / 3.4] (whose decimal logarithm is 3.16749...), the
    sigma level lies between 2.83203125 and 2.8330078125, which is 2.83 to two
    decimals, and the alert is "poor". *)
Theorem sigma_classification (log10 : float -> float) (s : num) :
  (ge s (PyInt 5) = true -> sigma_alert s = sigma_world_class) /\
  (ge s (PyInt 4) = true /\ lt s (PyInt 5) = true -> sigma_alert s = sigma_good) /\
  (ge s (PyInt 3) = true /\ lt s (PyInt 4) = true -> sigma_alert s = sigma_moderate) /\
  (lt s (PyInt 3) = true -> sigma_alert s = sigma_poor) /\
  (is_nan s = false ->
     ge s (PyInt 5) = true \/
     (ge s (PyInt 4) = true /\ lt s (PyInt 5) = true) \/
     (ge s (PyInt 3) = true /\ lt s (PyInt 4) = true) \/
     lt s (PyInt 3) = true) /\
  (forall defects, 0 <= defects <= 1000 ->
     exists d s' calls,
       six_sigma log10 defects = Ok (d, s', calls) /\
       ((forall x, In x calls -> PrimFloat.is_nan (log10 x) = false) ->
        is_nan s' = false)) /\
  ((3.1669921875 <=? log10 (5000 / lit_3_4))%float = true ->
   (log10 (5000 / lit_3_4) <=? 3.16796875)%float = true ->
   exists sigma,
     six_sigma log10 50 =
       Ok (PyFloat 5000, PyFloat sigma, [(5000 / lit_3_4)%float]) /\
     (2.83203125 <=? sigma)%float = true /\
     (sigma <=? 2.8330078125)%float = true /\
     sigma_alert (PyFloat sigma) = sigma_poor).
Proof.
  assert (Hpoor : forall x, lt x (PyInt 3) = true -> sigma_alert x = sigma_poor).
  { intros x H. unfold sigma_alert.
    rewrite (lt_int_not_ge x 3 5), (lt_int_not_ge x 3 4), (lt_int_not_ge x 3 3);
      auto; lia. }
  split; [|split; [|split; [|split; [|split; [|split]]]]];
    [| | | | |apply sigma_is_a_number|].
  - unfold sigma_alert. intros ->. reflexivity.
  - intros [H4 H5]. unfold sigma_alert.
    rewrite (lt_int_not_ge s 5 5), H4; auto; lia.
  - intros [H3 H4]. unfold sigma_alert.
    rewrite (lt_int_not_ge s 4 5), (lt_int_not_ge s 4 4), H3; auto; lia.
  - apply Hpoor.
  - intros Hs. unfold ge.
    destruct (lt_int_or_ge s 5 Hs eq_refl) as [H5|H5]; [|now left]. right.
    destruct (lt_int_or_ge s 4 Hs eq_refl) as [H4|H4]; [|now left]. right.
    destruct (lt_int_or_ge s 3 Hs eq_refl) as [H3|H3]; [now right|now left].
  - intros Hlo Hhi.
    destruct (six_minus_log _ Hlo Hhi) as [Hs1 Hs2].
    exists (6 - log10 (5000 / lit_3_4))%float.
    split; [|split; [exact Hs1|split; [exact Hs2|]]].
    + unfold six_sigma. change (dpmo 50) with (Ok (PyFloat 5000)). cbn [bind].
      rewrite sigma_level_positive by reflexivity. reflexivity.
    + apply Hpoor. unfold lt, to_float. change (float_of_int 3) with 3%float.
      apply (leb_ltb_trans _ 2.8330078125%float); [exact Hs2|reflexivity].
Qed.

Lemma sigma_classification_witness :
  exists sigma,
    six_sigma log10_series 50 =
      Ok (PyFloat 5000, PyFloat sigma, [(5000 / lit_3_4)%float]) /\
    (2.83203125 <=? sigma)%float = true /\
    (sigma <=? 2.8330078125)%float = true /\
    sigma_alert (PyFloat sigma) = sigma_poor.
Proof.
  apply (sigma_classification log10_series (PyInt 6)); reflexivity.
Defined.

(** * Further properties *)

Import Binary64.

(** * The rest of the page *)

(** ** Division by zero *)

(** X1.  The core calculations have no guard of their own: on integers that
    [float] holds exactly they raise [ZeroDivisionError] exactly when the
    number of doctors or the number of beds is 0, and return otherwise.  The
    sliders start at 1 doctor and 5 beds, so the dashboard never raises. *)
Theorem tab1_division_by_zero (d p c b s : Z) :
  exact_int d -> exact_int p -> exact_int c -> exact_int b -> exact_int s ->
  (tab1 d p c b s = Raise ZeroDivisionError <-> d = 0 \/ b = 0) /\
  (d <> 0 -> b <> 0 -> exists v, tab1 d p c b s = Ok v) /\
  (delivers num_doctors_slider d -> delivers num_beds_slider b ->
   exists v, tab1 d p c b s = Ok v).
Proof.
  intros _ _ _ _ _.
  assert (Hok : d <> 0 -> b <> 0 -> exists v, tab1 d p c b s = Ok v).
  { intros Hd Hb. unfold tab1, patients_per_doctor.
    rewrite truediv_int_nonzero by exact Hd. cbn [bind].
    unfold doctor_utilization. rewrite truediv_int_nonzero by lia. cbn [bind].
    unfold bed_utilization. rewrite truediv_int_nonzero by exact Hb. cbn [bind].
    eexists. reflexivity. }
  split; [|split; [exact Hok|]].
  - split.
    + intros E. destruct (Z.eq_dec d 0) as [|Hd]; [now left|].
      destruct (Z.eq_dec b 0) as [|Hb]; [now right|].
      destruct (Hok Hd Hb) as [v Hv]. congruence.
    + intros [-> | ->].
      * reflexivity.
      * destruct (Z.eq_dec d 0) as [->|Hd]; [reflexivity|].
        unfold tab1, patients_per_doctor.
        rewrite truediv_int_nonzero by exact Hd. cbn [bind].
        unfold doctor_utilization. rewrite truediv_int_nonzero by lia. cbn [bind].
        reflexivity.
  - unfold delivers. cbn. intros Hd Hb. apply Hok; lia.
Qed.

Lemma tab1_division_by_zero_witness :
  tab1 0 30 10 20 3 = Raise ZeroDivisionError /\
  tab1 5 30 10 0 3 = Raise ZeroDivisionError /\
  exists v, tab1 (-2) 30 10 20 3 = Ok v.
Proof.
  assert (E : forall z, Z.abs z < 2 ^ 5 -> exact_int z) by (unfold exact_int; lia).
  split; [|split].
  - apply (tab1_division_by_zero 0 30 10 20 3); try (apply E; reflexivity). now left.
  - apply (tab1_division_by_zero 5 30 10 0 3); try (apply E; reflexivity). now right.
  - apply (proj1 (proj2 (tab1_division_by_zero (-2) 30 10 20 3
             (E (-2) eq_refl) (E 30 eq_refl) (E 10 eq_refl) (E 20 eq_refl) (E 3 eq_refl))));
      discriminate.
Defined.

(** ** The declared domains, with shared conversions *)

Lemma widget_values_spec (w : int_widget) (z : Z) :
  delivers w z -> In z (widget_values w).
Proof.
  unfold delivers, widget_values. intros Hz.
  apply in_map_iff. exists (Z.to_nat (z - min_value w)).
  split; [lia|]. apply in_seq. lia.
Qed.

Lemma widget_floats_spec (w : int_widget) (z : Z) :
  delivers w z -> In (z, float_of_int z) (widget_floats w).
Proof.
  intros Hz. unfold widget_floats.
  apply in_map_iff. exists z. split; [reflexivity|now apply widget_values_spec].
Qed.

Lemma doctor_grid_spec check :
  doctor_grid check = true ->
  forall d p c,
    delivers num_doctors_slider d ->
    delivers num_patients_per_hour_slider p ->
    delivers consult_time_slider c ->
    check d (float_of_int d) p (float_of_int p) c (float_of_int c) = true.
Proof.
  unfold doctor_grid. cbv zeta. intros H d p c Hd Hp Hc.
  rewrite forallb_forall in H.
  specialize (H _ (widget_floats_spec _ _ Hd)). cbn [fst snd] in H.
  rewrite forallb_forall in H.
  specialize (H _ (widget_floats_spec _ _ Hp)). cbn [fst snd] in H.
  rewrite forallb_forall in H.
  exact (H _ (widget_floats_spec _ _ Hc)).
Qed.

Lemma bed_grid_spec check :
  bed_grid check = true ->
  forall p b,
    delivers num_patients_per_hour_slider p ->
    delivers num_beds_slider b ->
    check p (float_of_int p) b (float_of_int b) = true.
Proof.
  unfold bed_grid. cbv zeta. intros H p b Hp Hb.
  rewrite forallb_forall in H.
  specialize (H _ (widget_floats_spec _ _ Hp)). cbn [fst snd] in H.
  rewrite forallb_forall in H.
  exact (H _ (widget_floats_spec _ _ Hb)).
Qed.

(** The core calculations on their [float]s. *)
Lemma doctor_vars (d p c : Z) :
  d <> 0 ->
  let ppd := PyFloat (float_of_int p / float_of_int d) in
  patients_per_doctor p d = Ok ppd /\
  doctor_utilization ppd c =
    Ok (min (PyInt 100)
            (PyFloat (raw_utilization (float_of_int d) (float_of_int p) (float_of_int c)))) /\
  waiting_time ppd c =
    max (PyInt 0)
        (PyFloat (raw_waiting (float_of_int d) (float_of_int p) (float_of_int c))).
Proof.
  intros Hd ppd. subst ppd. unfold patients_per_doctor, doctor_utilization.
  rewrite truediv_int_nonzero by exact Hd. cbn [to_float mul].
  rewrite truediv_int_nonzero by lia. cbn [bind]. repeat split.
Qed.

Lemma bed_var (p b : Z) :
  b <> 0 ->
  bed_utilization p b =
    Ok (min (PyInt 100) (PyFloat (raw_bed (float_of_int p) (float_of_int b)))).
Proof.
  intros Hb. unfold bed_utilization.
  rewrite truediv_int_nonzero by exact Hb. reflexivity.
Qed.

Lemma min_100 (raw : float) :
  min (PyInt 100) (PyFloat raw) = if (raw <? 100)%float then PyFloat raw else PyInt 100.
Proof. reflexivity. Qed.

Lemma max_0 (raw : float) :
  max (PyInt 0) (PyFloat raw) = if (0 <? raw)%float then PyFloat raw else PyInt 0.
Proof. reflexivity. Qed.

Lemma le_min_100 (a b : float) :
  le (min (PyInt 100) (PyFloat a)) (min (PyInt 100) (PyFloat b)) =
  (capped a <=? capped b)%float.
Proof.
  rewrite !min_100. unfold capped.
  destruct (a <? 100)%float, (b <? 100)%float; reflexivity.
Qed.

Lemma le_max_0 (a b : float) :
  le (max (PyInt 0) (PyFloat a)) (max (PyInt 0) (PyFloat b)) =
  (floored a <=? floored b)%float.
Proof.
  rewrite !max_0. unfold floored.
  destruct (0 <? a)%float, (0 <? b)%float; reflexivity.
Qed.

Lemma mem3_In (x : Z * Z * Z) (l : list (Z * Z * Z)) : mem3 x l = true <-> In x l.
Proof.
  unfold mem3. rewrite existsb_exists. split.
  - intros ([[a b] c] & Hin & E). destruct x as [[a' b'] c']. cbn in E.
    apply andb_true_iff in E as [E Ec]. apply andb_true_iff in E as [Ea Eb].
    apply Z.eqb_eq in Ea, Eb, Ec. now subst.
  - intros Hin. exists x. split; [exact Hin|].
    destruct x as [[a b] c]. cbn. now rewrite !Z.eqb_refl.
Qed.

Lemma doctor_thresholds_all : doctor_grid thresholds_ok = true.
Proof. vm_compute. reflexivity. Qed.

Lemma doctor_display_all : doctor_grid display_ok = true.
Proof. vm_compute. reflexivity. Qed.

Lemma doctor_monotone_all : doctor_grid monotone_ok = true.
Proof. vm_compute. reflexivity. Qed.

Lemma bed_all : bed_grid bed_ok = true.
Proof. vm_compute. reflexivity. Qed.

Lemma dpmo_display_all : forall_widget defects_input dpmo_display_ok = true.
Proof. vm_compute. reflexivity. Qed.

(** ** Where the thresholds fall *)

Lemma doctor_msg_warns (du : num) :
  doctor_msg du = doctor_overutilized <-> gt du (PyInt 90) = true.
Proof.
  assert (Hne : doctor_overutilized <> doctor_optimal) by discriminate.
  unfold doctor_msg. destruct (gt du (PyInt 90)); split; congruence.
Qed.

Lemma bed_msg_warns (bu : num) :
  bed_msg bu = bed_overflow <-> gt bu (PyInt 85) = true.
Proof.
  assert (Hne : bed_overflow <> bed_healthy) by discriminate.
  unfold bed_msg. destruct (gt bu (PyInt 85)); split; congruence.
Qed.

Lemma gt_min_100 (raw : float) (n : Z) :
  (n <? 100)%Z = true ->
  gt (min (PyInt 100) (PyFloat raw)) (PyInt n) =
  if (raw <? 100)%float then (float_of_int n <? raw)%float else true.
Proof.
  intros Hn. rewrite min_100. destruct (raw <? 100)%float; [reflexivity|].
  unfold gt, lt. exact Hn.
Qed.

(** X2.  On the declared domains the doctors' warning is shown exactly when
    [patients * consult > 54 * doctors] (an exact utilization above 90
    percent), and at four more inputs: there the exact utilization is 90
    percent and rounding puts the computed one above 90. *)
Theorem doctor_warning_threshold (d p c : Z) :
  1 <= d <= 20 -> 10 <= p <= 100 -> 5 <= c <= 30 ->
  exists ppd du,
    patients_per_doctor p d = Ok ppd /\
    doctor_utilization ppd c = Ok du /\
    (doctor_msg du = doctor_overutilized <->
     54 * d < p * c \/ In (d, p, c) above_90_by_rounding) /\
    (In (d, p, c) above_90_by_rounding -> p * c = 54 * d).
Proof.
  intros Hd Hp Hc.
  destruct (doctor_vars d p c ltac:(lia)) as (Eppd & Edu & _).
  eexists. eexists. split; [exact Eppd|]. split; [exact Edu|].
  pose proof (doctor_grid_spec _ doctor_thresholds_all d p c Hd Hp Hc) as H.
  unfold thresholds_ok in H. cbv zeta in H.
  apply andb_true_iff in H as [H _]. apply andb_true_iff in H as [H _].
  apply Bool.eqb_prop in H.
  split.
  - rewrite doctor_msg_warns, gt_min_100 by reflexivity.
    change (float_of_int 90) with 90%float.
    rewrite H, orb_true_iff, Z.ltb_lt, mem3_In. reflexivity.
  - unfold above_90_by_rounding. cbn [In].
    intros [E|[E|[E|[E|[]]]]]; injection E as <- <- <-; reflexivity.
Qed.

Lemma doctor_warning_threshold_witness :
  exists ppd du,
    patients_per_doctor 18 7 = Ok ppd /\
    doctor_utilization ppd 21 = Ok du /\
    doctor_msg du = doctor_overutilized /\ 18 * 21 = 54 * 7.
Proof.
  destruct (doctor_warning_threshold 7 18 21) as (ppd & du & H1 & H2 & H3 & H4);
    try lia.
  exists ppd, du. split; [exact H1|]. split; [exact H2|]. split.
  - apply H3. right. now left.
  - apply H4. now left.
Defined.

(** X3.  On the declared domains the waiting time is above 0 exactly when
    [patients * consult > 60 * doctors], and it is the integer 0 otherwise:
    rounding never moves this threshold. *)
Theorem waiting_time_threshold (d p c : Z) :
  1 <= d <= 20 -> 10 <= p <= 100 -> 5 <= c <= 30 ->
  exists ppd,
    patients_per_doctor p d = Ok ppd /\
    (gt (waiting_time ppd c) (PyInt 0) = true <-> 60 * d < p * c) /\
    (waiting_time ppd c = PyInt 0 <-> p * c <= 60 * d).
Proof.
  intros Hd Hp Hc.
  destruct (doctor_vars d p c ltac:(lia)) as (Eppd & _ & Ewt).
  eexists. split; [exact Eppd|]. rewrite Ewt, max_0.
  pose proof (doctor_grid_spec _ doctor_thresholds_all d p c Hd Hp Hc) as H.
  unfold thresholds_ok in H. cbv zeta in H.
  apply andb_true_iff in H as [H _]. apply andb_true_iff in H as [_ H].
  apply Bool.eqb_prop in H.
  destruct (0 <? raw_waiting _ _ _)%float eqn:E.
  - symmetry in H. apply Z.ltb_lt in H. split.
    + unfold gt, lt, to_float. change (float_of_int 0) with 0%float.
      rewrite E. tauto.
    + split; [discriminate|lia].
  - symmetry in H. apply Z.ltb_ge in H. split.
    + split; [discriminate|lia].
    + tauto.
Qed.

Lemma waiting_time_threshold_witness :
  exists ppd,
    patients_per_doctor 30 11 = Ok ppd /\ waiting_time ppd 22 = PyInt 0.
Proof.
  destruct (waiting_time_threshold 11 30 22) as (ppd & H1 & _ & H3); try lia.
  exists ppd. split; [exact H1|]. apply H3. lia.
Defined.

(** X4.  On the declared domains the doctor utilization is the cap, the
    integer 100, exactly when [patients * consult >= 60 * doctors], except at
    four inputs: there the exact utilization is 100 percent and rounding
    leaves the computed one just below 100, uncapped. *)
Theorem utilization_cap_threshold (d p c : Z) :
  1 <= d <= 20 -> 10 <= p <= 100 -> 5 <= c <= 30 ->
  exists ppd du,
    patients_per_doctor p d = Ok ppd /\
    doctor_utilization ppd c = Ok du /\
    (du = PyInt 100 <->
     60 * d <= p * c /\ ~ In (d, p, c) below_100_by_rounding) /\
    (In (d, p, c) below_100_by_rounding ->
     p * c = 60 * d /\ lt du (PyInt 100) = true /\ waiting_time ppd c = PyInt 0).
Proof.
  intros Hd Hp Hc.
  destruct (doctor_vars d p c ltac:(lia)) as (Eppd & Edu & Ewt).
  eexists. eexists. split; [exact Eppd|]. split; [exact Edu|].
  pose proof (doctor_grid_spec _ doctor_thresholds_all d p c Hd Hp Hc) as H.
  unfold thresholds_ok in H. cbv zeta in H.
  apply andb_true_iff in H as [H H3]. apply andb_true_iff in H as [_ H2].
  apply Bool.eqb_prop in H2, H3.
  rewrite Ewt, min_100, max_0.
  assert (Hiff : (raw_utilization (float_of_int d) (float_of_int p) (float_of_int c)
                    <? 100)%float = false <->
                 60 * d <= p * c /\ ~ In (d, p, c) below_100_by_rounding).
  { rewrite <- negb_true_iff, H3, andb_true_iff, negb_true_iff, Z.leb_le.
    rewrite <- mem3_In, not_true_iff_false. reflexivity. }
  split.
  - rewrite <- Hiff. destruct (_ <? 100)%float; split; congruence.
  - intros Hin.
    assert (Hpc : p * c = 60 * d).
    { revert Hin. unfold below_100_by_rounding. cbn [In].
      intros [E|[E|[E|[E|[]]]]]; injection E as <- <- <-; reflexivity. }
    split; [exact Hpc|].
    destruct (_ <? 100)%float eqn:E100.
    + split; [exact E100|].
      replace (0 <? raw_waiting _ _ _)%float with false; [reflexivity|].
      rewrite H2. symmetry. apply Z.ltb_ge. lia.
    + exfalso. destruct Hiff as [Hiff _]. destruct (Hiff eq_refl) as [_ Hn]. tauto.
Qed.

Lemma utilization_cap_threshold_witness :
  exists ppd du,
    patients_per_doctor 30 11 = Ok ppd /\
    doctor_utilization ppd 22 = Ok du /\
    30 * 22 = 60 * 11 /\ lt du (PyInt 100) = true /\ waiting_time ppd 22 = PyInt 0.
Proof.
  destruct (utilization_cap_threshold 11 30 22) as (ppd & du & H1 & H2 & _ & H4);
    try lia.
  exists ppd, du. split; [exact H1|]. split; [exact H2|]. apply H4. now left.
Defined.

(** ** The page as a whole *)

Lemma tab1_computed (d p c b s : Z) :
  d <> 0 -> b <> 0 ->
  let fd := float_of_int d in
  let fp := float_of_int p in
  let du := min (PyInt 100) (PyFloat (raw_utilization fd fp (float_of_int c))) in
  let bu := min (PyInt 100) (PyFloat (raw_bed fp (float_of_int b))) in
  tab1 d p c b s =
    Ok (Tab1 (PyFloat (fp / fd)) du
             (max (PyInt 0) (PyFloat (raw_waiting fd fp (float_of_int c))))
             bu (PyInt (p * s)) (doctor_msg du) (bed_msg bu)).
Proof.
  intros Hd Hb fd fp du bu. subst fd fp du bu.
  destruct (doctor_vars d p c Hd) as (Eppd & Edu & Ewt).
  unfold tab1. rewrite Eppd. cbn [bind]. rewrite Edu. cbn [bind].
  rewrite Ewt, (bed_var p b Hb). reflexivity.
Qed.

Lemma format_min_100 (raw : float) :
  format_f 1 (min (PyInt 100) (PyFloat raw)) =
  if (raw <? 100)%float then format_float 1 raw else "100.0".
Proof. rewrite min_100. destruct (raw <? 100)%float; reflexivity. Qed.

Lemma format_max_0 (raw : float) :
  format_f 1 (max (PyInt 0) (PyFloat raw)) =
  if (0 <? raw)%float then format_float 1 raw else "0.0".
Proof. rewrite max_0. destruct (0 <? raw)%float; reflexivity. Qed.

Lemma if_string_iff (b : bool) (s t : string) :
  (if b then s else t) = t <-> (if b then String.eqb s t else true) = true.
Proof. destruct b; [apply iff_sym, String.eqb_eq|tauto]. Qed.

(** X5.  On the declared domains the three formatted metrics are shown, and
    to one decimal the thresholds are exact: the doctor utilization reads
    "100.0 %" exactly when [patients * consult >= 60 * doctors], the waiting
    time reads "0.0 mins" exactly when [patients * consult <= 60 * doctors],
    and the bed utilization reads "100.0 %" exactly when the beds do not
    outnumber the patients per hour. *)
Theorem kpi_display_thresholds (d p c b s : Z) :
  1 <= d <= 20 -> 10 <= p <= 100 -> 5 <= c <= 30 -> 5 <= b <= 100 ->
  exists v u w bm,
    tab1 d p c b s = Ok v /\
    kpi_metrics v = [ ("Doctor Utilization", u ++ " %");
                      ("Avg Waiting Time", w ++ " mins");
                      ("Bed Utilization", bm ++ " %") ] /\
    (u = "100.0" <-> 60 * d <= p * c) /\
    (w = "0.0" <-> p * c <= 60 * d) /\
    (bm = "100.0" <-> b <= p).
Proof.
  intros Hd Hp Hc Hb.
  pose proof (tab1_computed d p c b s ltac:(lia) ltac:(lia)) as Ev. cbv zeta in Ev.
  eexists. eexists. eexists. eexists. split; [exact Ev|].
  split; [reflexivity|]. cbn [v_doctor_utilization v_waiting_time v_bed_utilization].
  rewrite !format_min_100, format_max_0.
  pose proof (doctor_grid_spec _ doctor_display_all d p c Hd Hp Hc) as H.
  unfold display_ok in H. cbv zeta in H. apply andb_true_iff in H as [Hu Hw].
  pose proof (bed_grid_spec _ bed_all p b Hp Hb) as HB.
  unfold bed_ok in HB. cbv zeta in HB.
  apply andb_true_iff in HB as [HB _]. apply andb_true_iff in HB as [HB _].
  apply andb_true_iff in HB as [_ HB].
  apply Bool.eqb_prop in Hu, Hw, HB.
  rewrite !if_string_iff, Hu, Hw, HB, !Z.leb_le. tauto.
Qed.

Lemma kpi_display_thresholds_witness :
  exists v u w bm,
    tab1 11 30 22 20 3 = Ok v /\
    kpi_metrics v = [ ("Doctor Utilization", u ++ " %");
                      ("Avg Waiting Time", w ++ " mins");
                      ("Bed Utilization", bm ++ " %") ] /\
    u = "100.0" /\ w = "0.0" /\ bm = "100.0".
Proof.
  destruct (kpi_display_thresholds 11 30 22 20 3)
    as (v & u & w & bm & H1 & H2 & H3 & H4 & H5); try lia.
  exists v, u, w, bm. split; [exact H1|]. split; [exact H2|].
  split; [apply H3; lia|]. split; [apply H4; lia|apply H5; lia].
Defined.

(** ** What the advice changes *)

Lemma doctor_monotone_facts (d p c : Z) :
  1 <= d <= 20 -> 10 <= p <= 100 -> 5 <= c <= 30 ->
  monotone_ok d (float_of_int d) p (float_of_int p) c (float_of_int c) = true.
Proof. intros Hd Hp Hc. now apply (doctor_grid_spec _ doctor_monotone_all). Qed.

(** X6.  The doctors' warning advises to hire doctors or to shorten the
    consultation.  On the declared domains one more doctor (up to 21), or one
    minute less, never raises the doctor utilization and never raises the
    waiting time, rounding included. *)
Theorem advice_never_hurts (d p c : Z) :
  1 <= d <= 20 -> 10 <= p <= 100 -> 5 <= c <= 30 ->
  exists ppd du ppd' du' du'',
    patients_per_doctor p d = Ok ppd /\
    doctor_utilization ppd c = Ok du /\
    patients_per_doctor p (d + 1) = Ok ppd' /\
    doctor_utilization ppd' c = Ok du' /\
    doctor_utilization ppd (c + 1) = Ok du'' /\
    le du' du = true /\
    le (waiting_time ppd' c) (waiting_time ppd c) = true /\
    le du du'' = true /\
    le (waiting_time ppd c) (waiting_time ppd (c + 1)) = true.
Proof.
  intros Hd Hp Hc.
  destruct (doctor_vars d p c ltac:(lia)) as (Eppd & Edu & Ewt).
  destruct (doctor_vars (d + 1) p c ltac:(lia)) as (Eppd' & Edu' & Ewt').
  destruct (doctor_vars d p (c + 1) ltac:(lia)) as (_ & Edu'' & Ewt'').
  do 5 eexists.
  split; [exact Eppd|]. split; [exact Edu|]. split; [exact Eppd'|].
  split; [exact Edu'|]. split; [exact Edu''|].
  rewrite Ewt, Ewt', Ewt'', !le_min_100, !le_max_0.
  pose proof (doctor_monotone_facts d p c Hd Hp Hc) as H.
  unfold monotone_ok in H. cbv zeta in H.
  apply andb_true_iff in H as [H H6]. apply andb_true_iff in H as [H H5].
  apply andb_true_iff in H as [H H4]. apply andb_true_iff in H as [H H3].
  apply andb_true_iff in H as [H1 H2].
  repeat split; assumption.
Qed.

Lemma advice_never_hurts_witness :
  exists ppd du ppd' du' du'',
    patients_per_doctor 30 5 = Ok ppd /\
    doctor_utilization ppd 10 = Ok du /\
    patients_per_doctor 30 (5 + 1) = Ok ppd' /\
    doctor_utilization ppd' 10 = Ok du' /\
    doctor_utilization ppd (10 + 1) = Ok du'' /\
    le du' du = true /\
    le (waiting_time ppd' 10) (waiting_time ppd 10) = true /\
    le du du'' = true /\
    le (waiting_time ppd 10) (waiting_time ppd (10 + 1)) = true.
Proof. apply (advice_never_hurts 5 30 10); lia. Defined.

(** X7.  On the declared domains one more patient per hour (up to 101) never
    lowers the doctor utilization and never lowers the waiting time. *)
Theorem more_patients_never_help (d p c : Z) :
  1 <= d <= 20 -> 10 <= p <= 100 -> 5 <= c <= 30 ->
  exists ppd du ppd' du',
    patients_per_doctor p d = Ok ppd /\
    doctor_utilization ppd c = Ok du /\
    patients_per_doctor (p + 1) d = Ok ppd' /\
    doctor_utilization ppd' c = Ok du' /\
    le du du' = true /\
    le (waiting_time ppd c) (waiting_time ppd' c) = true.
Proof.
  intros Hd Hp Hc.
  destruct (doctor_vars d p c ltac:(lia)) as (Eppd & Edu & Ewt).
  destruct (doctor_vars d (p + 1) c ltac:(lia)) as (Eppd' & Edu' & Ewt').
  do 4 eexists.
  split; [exact Eppd|]. split; [exact Edu|]. split; [exact Eppd'|].
  split; [exact Edu'|].
  rewrite Ewt, Ewt', !le_min_100, !le_max_0.
  pose proof (doctor_monotone_facts d p c Hd Hp Hc) as H.
  unfold monotone_ok in H. cbv zeta in H.
  apply andb_true_iff in H as [H _]. apply andb_true_iff in H as [H _].
  apply andb_true_iff in H as [H H4]. apply andb_true_iff in H as [_ H3].
  split; assumption.
Qed.

Lemma more_patients_never_help_witness :
  exists ppd du ppd' du',
    patients_per_doctor 30 5 = Ok ppd /\
    doctor_utilization ppd 10 = Ok du /\
    patients_per_doctor (30 + 1) 5 = Ok ppd' /\
    doctor_utilization ppd' 10 = Ok du' /\
    le du du' = true /\
    le (waiting_time ppd 10) (waiting_time ppd' 10) = true.
Proof. apply (more_patients_never_help 5 30 10); lia. Defined.

(** ** Beds *)

Lemma bed_facts (p b : Z) :
  10 <= p <= 100 -> 5 <= b <= 100 ->
  bed_ok p (float_of_int p) b (float_of_int b) = true.
Proof. intros Hp Hb. now apply (bed_grid_spec _ bed_all). Qed.

(** X8.  On the declared domains the beds' warning is shown exactly when
    [100 * patients > 85 * beds], and the bed utilization is the cap, the
    integer 100, exactly when the beds do not outnumber the patients per
    hour: rounding moves neither threshold. *)
Theorem bed_warning_threshold (p b : Z) :
  10 <= p <= 100 -> 5 <= b <= 100 ->
  exists bu,
    bed_utilization p b = Ok bu /\
    (bed_msg bu = bed_overflow <-> 85 * b < 100 * p) /\
    (bu = PyInt 100 <-> b <= p).
Proof.
  intros Hp Hb. rewrite (bed_var p b ltac:(lia)).
  eexists. split; [reflexivity|].
  pose proof (bed_facts p b Hp Hb) as H. unfold bed_ok in H. cbv zeta in H.
  apply andb_true_iff in H as [H _]. apply andb_true_iff in H as [H _].
  apply andb_true_iff in H as [H _]. apply andb_true_iff in H as [H1 H2].
  apply Bool.eqb_prop in H1, H2.
  split.
  - rewrite bed_msg_warns, gt_min_100 by reflexivity.
    change (float_of_int 85) with 85%float. rewrite H1. apply Z.ltb_lt.
  - rewrite min_100, <- Z.leb_le, <- H2.
    destruct (_ <? 100)%float; cbn [negb]; split; intros E;
      try reflexivity; discriminate E.
Qed.

Lemma bed_warning_threshold_witness :
  exists bu, bed_utilization 17 20 = Ok bu /\ bed_msg bu = bed_healthy.
Proof.
  destruct (bed_warning_threshold 17 20) as (bu & H1 & H2 & _); try lia.
  exists bu. split; [exact H1|].
  unfold bed_msg. destruct (gt bu (PyInt 85)) eqn:E; [|reflexivity].
  exfalso. apply bed_msg_warns in E. apply H2 in E. lia.
Defined.

(** X9.  On the declared domains one more bed (up to 101) never raises the
    bed utilization, and one more patient per hour never lowers it. *)
Theorem bed_utilization_monotone (p b : Z) :
  10 <= p <= 100 -> 5 <= b <= 100 ->
  exists bu bu' bu'',
    bed_utilization p b = Ok bu /\
    bed_utilization p (b + 1) = Ok bu' /\
    bed_utilization (p + 1) b = Ok bu'' /\
    le bu' bu = true /\ le bu bu'' = true.
Proof.
  intros Hp Hb.
  rewrite (bed_var p b ltac:(lia)), (bed_var p (b + 1) ltac:(lia)),
          (bed_var (p + 1) b ltac:(lia)).
  do 3 eexists. do 3 (split; [reflexivity|]). rewrite !le_min_100.
  pose proof (bed_facts p b Hp Hb) as H. unfold bed_ok in H. cbv zeta in H.
  apply andb_true_iff in H as [H H2]. apply andb_true_iff in H as [_ H1].
  split; assumption.
Qed.

Lemma bed_utilization_monotone_witness :
  exists bu bu' bu'',
    bed_utilization 30 20 = Ok bu /\
    bed_utilization 30 (20 + 1) = Ok bu' /\
    bed_utilization (30 + 1) 20 = Ok bu'' /\
    le bu' bu = true /\ le bu bu'' = true.
Proof. apply (bed_utilization_monotone 30 20); lia. Defined.

(** ** Messages, chart and metrics together *)

(** X10.  On the declared domains, whenever the waiting time is above 0 the
    doctors' message is the overutilization warning, and it heads the
    insights; whenever the message is the optimal one the waiting time is the
    integer 0. *)
Theorem waiting_means_overutilized (d p c b s : Z) :
  1 <= d <= 20 -> 10 <= p <= 100 -> 5 <= c <= 30 -> 5 <= b <= 100 ->
  exists v,
    tab1 d p c b s = Ok v /\
    (gt (v_waiting_time v) (PyInt 0) = true ->
     v_doctor_msg v = doctor_overutilized /\
     hd "" (insights v) = "- " ++ doctor_overutilized) /\
    (v_doctor_msg v = doctor_optimal -> v_waiting_time v = PyInt 0).
Proof.
  intros Hd Hp Hc Hb.
  pose proof (tab1_computed d p c b s ltac:(lia) ltac:(lia)) as Ev. cbv zeta in Ev.
  eexists. split; [exact Ev|].
  cbn [v_waiting_time v_doctor_msg insights hd].
  pose proof (doctor_grid_spec _ doctor_thresholds_all d p c Hd Hp Hc) as H.
  unfold thresholds_ok in H. cbv zeta in H.
  apply andb_true_iff in H as [H _]. apply andb_true_iff in H as [H1 H2].
  apply Bool.eqb_prop in H1, H2.
  set (raw := raw_utilization _ _ _) in *. set (w := raw_waiting _ _ _) in *.
  assert (Hwarn : 60 * d < p * c -> doctor_msg (min (PyInt 100) (PyFloat raw))
                                    = doctor_overutilized).
  { intros Hlt. rewrite doctor_msg_warns, gt_min_100 by reflexivity.
    change (float_of_int 90) with 90%float. rewrite H1.
    apply orb_true_iff. left. apply Z.ltb_lt. lia. }
  rewrite max_0. destruct (0 <? w)%float.
  - symmetry in H2. apply Z.ltb_lt in H2. split.
    + intros _. rewrite (Hwarn H2). split; reflexivity.
    + rewrite (Hwarn H2). discriminate.
  - split; [discriminate|reflexivity].
Qed.

Lemma waiting_means_overutilized_witness :
  exists v,
    tab1 3 10 30 20 3 = Ok v /\
    (gt (v_waiting_time v) (PyInt 0) = true ->
     v_doctor_msg v = doctor_overutilized /\
     hd "" (insights v) = "- " ++ doctor_overutilized) /\
    (v_doctor_msg v = doctor_optimal -> v_waiting_time v = PyInt 0).
Proof. apply (waiting_means_overutilized 3 10 30 20 3); lia. Defined.

Lemma le_100_lt_120 (x : num) : le x (PyInt 100) = true -> lt x (PyInt 120) = true.
Proof.
  destruct x as [z|f]; cbn.
  - rewrite Z.leb_le, Z.ltb_lt. lia.
  - intros H. now apply (leb_ltb_trans _ (float_of_int 100)).
Qed.

(** X11.  On the declared domains the chart has one bar for the doctors and
    one for the beds, and both lie inside the range of its y axis: at least
    0, at most 100, below the upper end 120. *)
Theorem chart_bars_within_axis (d p c b s : Z) :
  1 <= d <= 20 -> 10 <= p <= 100 -> 5 <= c <= 30 -> 5 <= b <= 100 ->
  exists v,
    tab1 d p c b s = Ok v /\
    bar_y (fig v) = [v_doctor_utilization v; v_bed_utilization v] /\
    List.length (bar_x (fig v)) = List.length (bar_y (fig v)) /\
    Forall (fun y => le (fst (yaxis_range (fig v))) y = true /\
                     le y (PyInt 100) = true /\
                     lt y (snd (yaxis_range (fig v))) = true)
           (bar_y (fig v)).
Proof.
  intros Hd Hp Hc Hb.
  pose proof (doctor_figures d p c Hd Hp Hc) as HD.
  pose proof (bed_figures p b Hp Hb) as HB.
  unfold doctor_figures_ok in HD. unfold bed_figures_ok in HB.
  unfold tab1.
  destruct (patients_per_doctor p d) as [ppd|]; [cbn [bind]|discriminate].
  destruct (doctor_utilization ppd c) as [du|]; [cbn [bind]|discriminate].
  destruct (bed_utilization p b) as [bu|]; [cbn [bind]|discriminate].
  apply andb_true_iff in HD as [HD _]. apply andb_true_iff in HD as [HD0 HD100].
  apply andb_true_iff in HB as [HB0 HB100].
  eexists. split; [reflexivity|].
  cbn [fig bar_x bar_y yaxis_range fst snd v_doctor_utilization v_bed_utilization].
  split; [reflexivity|]. split; [reflexivity|].
  repeat constructor; auto using le_100_lt_120.
Qed.

Lemma chart_bars_within_axis_witness :
  exists v,
    tab1 20 10 5 100 1 = Ok v /\
    bar_y (fig v) = [v_doctor_utilization v; v_bed_utilization v] /\
    List.length (bar_x (fig v)) = List.length (bar_y (fig v)) /\
    Forall (fun y => le (fst (yaxis_range (fig v))) y = true /\
                     le y (PyInt 100) = true /\
                     lt y (snd (yaxis_range (fig v))) = true)
           (bar_y (fig v)).
Proof. apply (chart_bars_within_axis 20 10 5 100 1); lia. Defined.

(** X12.  For 0 to 1000 defects the DPMO metric reads [100 * defects]
    exactly, as an integer, whatever the logarithm is: the rounding of the
    DPMO (it is 7900.000000000001 for 79 defects) never shows. *)
Theorem dpmo_metric_exact (log10 : float -> float) (defects : Z) :
  0 <= defects <= 1000 ->
  exists d s calls,
    six_sigma log10 defects = Ok (d, s, calls) /\
    hd ("", "") (six_sigma_metrics d s) =
      ("Defects per Million Opportunities (DPMO)", str (100 * defects)).
Proof.
  intros Hdef.
  pose proof (forall_widget_spec _ _ dpmo_sign_all defects Hdef) as H.
  unfold dpmo_sign_ok in H. cbv zeta in H.
  apply andb_true_iff in H as [Hsign _]. apply orb_true_iff in Hsign.
  pose proof (forall_widget_spec _ _ dpmo_display_all defects Hdef) as HD.
  unfold dpmo_display_ok in HD. apply String.eqb_eq in HD.
  unfold six_sigma. rewrite dpmo_is_value. cbn [bind].
  destruct Hsign as [Hpos|Hz].
  - rewrite (sigma_level_positive log10 _ Hpos). cbn [bind fst snd].
    do 3 eexists. split; [reflexivity|]. cbn [six_sigma_metrics hd].
    unfold format_f, to_float. now rewrite HD.
  - rewrite (sigma_level_zero log10 _ Hz). cbn [bind fst snd].
    do 3 eexists. split; [reflexivity|]. cbn [six_sigma_metrics hd].
    unfold format_f, to_float. now rewrite HD.
Qed.

Lemma dpmo_metric_exact_witness :
  exists d s calls,
    six_sigma log10_series 79 = Ok (d, s, calls) /\
    d = PyFloat 0x1.edc0000000001p+12 /\
    hd ("", "") (six_sigma_metrics d s) =
      ("Defects per Million Opportunities (DPMO)", "7900").
Proof.
  destruct (dpmo_metric_exact log10_series 79) as (d & s & calls & H1 & H2); [lia|].
  exists d, s, calls. split; [exact H1|]. split; [|exact H2].
  generalize H1. unfold six_sigma.
  change (dpmo 79) with (Ok (PyFloat 0x1.edc0000000001p+12)). cbn [bind].
  destruct (sigma_level log10_series _) as [[s' c']|]; [cbn [bind]|discriminate].
  intros E. now injection E as <- _ _.
Defined.

(** ** The simulated progress bar *)

Lemma for_range_loop_body (count : nat) : forall (start : Z) (s : sim_state),
  0 <= start -> start + Z.of_nat count <= 100 ->
  for_range start count loop_body s =
    inl {| my_bar := match count with O => my_bar s | S _ => start + Z.of_nat count end;
           calls := calls s ++
                    flat_map loop_calls (map (fun k => start + Z.of_nat k) (seq 1 count)) |}.
Proof.
  induction count as [|n IH]; intros start s H0 H100.
  - cbn. rewrite app_nil_r. now destruct s.
  - cbn [for_range]. unfold loop_body at 1, progress.
    replace ((0 <=? start + 1) && (start + 1 <=? 100))%Z with true
      by (symmetry; apply andb_true_iff; split; apply Z.leb_le; lia).
    rewrite IH by lia. f_equal.
    cbn [my_bar calls sleep]. f_equal.
    + destruct n; lia.
    + rewrite <- !app_assoc. f_equal.
      cbn [seq map flat_map]. change (Z.of_nat 1) with 1.
      unfold loop_calls at 2. cbn [app]. do 2 f_equal.
      rewrite <- (seq_shift n 1), map_map. f_equal.
      apply map_ext. intros k. lia.
Qed.

Lemma for_range_raises (count : nat) : forall (start : Z) (s : sim_state),
  0 <= start <= 100 -> 100 < start + Z.of_nat count ->
  for_range start count loop_body s = inr StreamlitAPIException.
Proof.
  induction count as [|n IH]; intros start s H0 H100.
  - cbn in H100. lia.
  - cbn [for_range]. unfold loop_body at 1, progress.
    destruct (Z.leb_spec (start + 1) 100) as [Hle|Hgt].
    + replace (0 <=? start + 1)%Z with true by (symmetry; apply Z.leb_le; lia).
      cbn [andb]. apply IH; lia.
    + rewrite andb_false_r. reflexivity.
Qed.

(** X13.  The progress loop run for [count] iterations completes exactly when
    [count] is at most 100, the bound the script uses: the bar then stands at
    [count] and the calls made are the initial [progress(0)] followed, for
    each k from 1 to [count], by a sleep of 0.01 s and [progress(k)] with the
    text "Simulating k%".  One more iteration than 100 raises Streamlit's
    exception.  The script's run ends with a sleep of 0.5 s and the success
    message. *)
Theorem simulation_progress (count : nat) :
  ((count <= 100)%nat ->
   simulation_loop count =
     inl {| my_bar := Z.of_nat count;
            calls := bar_progress 0 "Simulating patient inflow..." ::
                     flat_map loop_calls (map Z.of_nat (seq 1 count)) |}) /\
  ((100 < count)%nat -> simulation_loop count = inr StreamlitAPIException) /\
  exists s,
    simulation = inl s /\ my_bar s = 100 /\
    calls s = bar_progress 0 "Simulating patient inflow..." ::
              flat_map loop_calls (map Z.of_nat (seq 1 100)) ++
              [time_sleep 0.5; sim_success "✅ Simulation Complete"].
Proof.
  assert (Hloop : forall n, (n <= 100)%nat ->
    simulation_loop n =
     inl {| my_bar := Z.of_nat n;
            calls := bar_progress 0 "Simulating patient inflow..." ::
                     flat_map loop_calls (map Z.of_nat (seq 1 n)) |}).
  { intros n Hn. unfold simulation_loop, progress. cbn [Z.leb andb Z.compare calls app].
    rewrite for_range_loop_body by lia. cbn [my_bar calls app]. f_equal. f_equal.
    destruct n; reflexivity. }
  split; [apply Hloop|]. split.
  - intros Hgt. unfold simulation_loop, progress. cbn [Z.leb andb Z.compare calls app].
    apply for_range_raises; lia.
  - unfold simulation. rewrite (Hloop 100%nat) by lia.
    eexists. split; [reflexivity|]. cbn [sleep my_bar calls]. split; [reflexivity|].
    rewrite <- app_assoc. reflexivity.
Qed.

Lemma simulation_progress_witness :
  simulation_loop 2 =
    inl {| my_bar := 2;
           calls := [bar_progress 0 "Simulating patient inflow...";
                     time_sleep lit_0_01; bar_progress 1 "Simulating 1%";
                     time_sleep lit_0_01; bar_progress 2 "Simulating 2%"] |} /\
  simulation_loop 101 = inr StreamlitAPIException.
Proof.
  split.
  - apply (proj1 (simulation_progress 2)). lia.
  - apply (proj1 (proj2 (simulation_progress 101))). lia.
Defined.

(** ** Rounding and order

    The quotient and the product of binary64 values are the exact results
    rounded to nearest.  What the advice on the ROI needs of this is that
    rounding keeps the order with a binary64 value: a result at least [c]
    rounds to at least [c], a result at most [c] rounds to at most [c].
    A finite value [m * 2^e] is compared with another through
    [le_scaled]. *)
Module Rounding.
Import Binary64.
Local Open Scope Z_scope.

Definition le_scaled (m1 e1 m2 e2 : Z) : Prop :=
  m1 * 2 ^ (e1 - Z.min e1 e2) <= m2 * 2 ^ (e2 - Z.min e1 e2).

Definition canonical (m e : Z) : Prop :=
  fexp prec emax (Zdigits2 m + e) = e.

Definition shift_of (m e : Z) : Z := fexp prec emax (Zdigits2 m + e) - e.

Lemma pow2_pos k : 0 <= k -> 0 < 2 ^ k.
Proof. intros H. apply Z.pow_pos_nonneg; lia. Qed.

Lemma pow2_add a b : 0 <= a -> 0 <= b -> 2 ^ (a + b) = 2 ^ a * 2 ^ b.
Proof. apply Z.pow_add_r. Qed.

Lemma pow2_sub a b c : c <= b -> b <= a -> 2 ^ (a - c) = 2 ^ (a - b) * 2 ^ (b - c).
Proof. intros H1 H2. rewrite <- pow2_add by lia. f_equal. lia. Qed.

Lemma le_scaled_at k m1 e1 m2 e2 :
  k <= e1 -> k <= e2 ->
  le_scaled m1 e1 m2 e2 <-> m1 * 2 ^ (e1 - k) <= m2 * 2 ^ (e2 - k).
Proof.
  intros H1 H2. unfold le_scaled. set (j := Z.min e1 e2).
  assert (Hj : k <= j) by lia.
  rewrite (pow2_sub e1 j k), (pow2_sub e2 j k), !Z.mul_assoc by lia.
  apply Z.mul_le_mono_pos_r, pow2_pos. lia.
Qed.

Lemma le_scaled_trans m1 e1 m2 e2 m3 e3 :
  le_scaled m1 e1 m2 e2 -> le_scaled m2 e2 m3 e3 -> le_scaled m1 e1 m3 e3.
Proof.
  set (k := Z.min e1 (Z.min e2 e3)).
  rewrite (le_scaled_at k m1 e1 m2 e2), (le_scaled_at k m2 e2 m3 e3),
    (le_scaled_at k m1 e1 m3 e3) by lia.
  lia.
Qed.

Lemma le_scaled_mantissa m1 m2 e : m1 <= m2 -> le_scaled m1 e m2 e.
Proof.
  intros H. apply (le_scaled_at e); try lia. rewrite Z.sub_diag. lia.
Qed.

Lemma le_scaled_pos m1 e1 m2 e2 : 0 < m1 -> le_scaled m1 e1 m2 e2 -> 0 < m2.
Proof.
  unfold le_scaled. intros H1 H.
  pose proof (pow2_pos (e1 - Z.min e1 e2) ltac:(lia)) as P1.
  pose proof (pow2_pos (e2 - Z.min e1 e2) ltac:(lia)) as P2.
  nia.
Qed.

(** *** Digits *)
Lemma Zdigits2_bounds m :
  0 < m -> 0 < Zdigits2 m /\ 2 ^ (Zdigits2 m - 1) <= m < 2 ^ Zdigits2 m.
Proof.
  destruct m as [|p|p]; try lia. intros _. cbn [Zdigits2].
  rewrite digits2_pos_size.
  pose proof (Pos.size_gt p) as Hgt. pose proof (Pos.size_le p) as Hle.
  apply Pos2Z.pos_lt_pos in Hgt. apply Pos2Z.pos_le_pos in Hle.
  rewrite Pos2Z.inj_pow in Hgt, Hle. rewrite (Pos2Z.inj_xO p) in Hle.
  split; [lia|]. split; [|exact Hgt].
  assert (E : 2 ^ Z.pos (Pos.size p) = 2 * 2 ^ (Z.pos (Pos.size p) - 1)).
  { rewrite <- Z.pow_succ_r by lia. f_equal. lia. }
  rewrite E in Hle. lia.
Qed.

Lemma pow2_lt_inv a b : 0 <= a -> 2 ^ a < 2 ^ b -> a < b.
Proof.
  intros Ha H. destruct (Z.lt_ge_cases a b) as [?|Hge]; [assumption|exfalso].
  destruct (Z.lt_ge_cases b 0) as [Hb|Hb].
  - rewrite (Z.pow_neg_r 2 b Hb) in H. pose proof (pow2_pos a Ha). lia.
  - pose proof (Z.pow_le_mono_r 2 b a ltac:(lia) Hge). lia.
Qed.

Lemma Zdigits2_unique m k :
  0 < m -> 2 ^ (k - 1) <= m < 2 ^ k -> Zdigits2 m = k.
Proof.
  intros Hm [Hlo Hhi]. destruct (Zdigits2_bounds m Hm) as (Hd & Hdlo & Hdhi).
  assert (Hk : 0 < k).
  { destruct (Z.lt_ge_cases 0 k) as [?|Hk]; [assumption|exfalso].
    destruct (Z.eq_dec k 0) as [->|Hk0]; [cbn in Hhi; lia|].
    rewrite (Z.pow_neg_r 2 k) in Hhi by lia. lia. }
  assert (H1 : Zdigits2 m - 1 < k) by (apply pow2_lt_inv; lia).
  assert (H2 : k - 1 < Zdigits2 m) by (apply pow2_lt_inv; lia).
  lia.
Qed.

Lemma Zdigits2_mono a b : 0 < a -> a <= b -> Zdigits2 a <= Zdigits2 b.
Proof.
  intros Ha Hab. destruct (Zdigits2_bounds a Ha) as (Hd & Hlo & _).
  destruct (Zdigits2_bounds b ltac:(lia)) as (_ & _ & Hhi).
  assert (Zdigits2 a - 1 < Zdigits2 b) by (apply pow2_lt_inv; lia). lia.
Qed.

Lemma Zdigits2_div m n :
  0 < m -> 0 <= n -> 0 < m / 2 ^ n -> Zdigits2 (m / 2 ^ n) = Zdigits2 m - n.
Proof.
  intros Hm Hn Hq. destruct (Zdigits2_bounds m Hm) as (Hd & Hlo & Hhi).
  pose proof (pow2_pos n Hn) as Pn.
  assert (Hnd : n < Zdigits2 m).
  { apply pow2_lt_inv; [lia|].
    assert (2 ^ n <= m); [|lia].
    destruct (Z.le_gt_cases (2 ^ n) m) as [?|Hlt]; [assumption|].
    rewrite Z.div_small in Hq by lia. lia. }
  apply Zdigits2_unique; [assumption|]. split.
  - apply Z.div_le_lower_bound; [assumption|].
    rewrite <- pow2_add by lia.
    replace (n + (Zdigits2 m - n - 1)) with (Zdigits2 m - 1) by lia. assumption.
  - apply Z.div_lt_upper_bound; [assumption|].
    rewrite <- pow2_add by lia.
    replace (n + (Zdigits2 m - n)) with (Zdigits2 m) by lia. assumption.
Qed.

(** *** Shifting a mantissa to the right *)
Lemma shr_1_m mrs : 0 <= shr_m mrs -> shr_m (shr_1 mrs) = shr_m mrs / 2.
Proof.
  destruct mrs as [m r s]. destruct m as [|[p|p|]|p]; cbn [shr_1 shr_m]; intros H.
  - reflexivity.
  - rewrite (Pos2Z.inj_xI p). apply Z.div_unique with (r := 1); lia.
  - rewrite (Pos2Z.inj_xO p). apply Z.div_unique with (r := 0); lia.
  - reflexivity.
  - lia.
Qed.

Lemma iter_shr_1_m p : forall mrs,
  0 <= shr_m mrs -> shr_m (iter_pos shr_1 p mrs) = shr_m mrs / 2 ^ Zpos p.
Proof.
  induction p as [p IH|p IH|]; intros mrs H; cbn [iter_pos].
  - rewrite IH, IH, shr_1_m by auto using iter_shr_1_nonneg, shr_1_nonneg.
    pose proof (pow2_pos (Zpos p) ltac:(lia)) as P.
    rewrite !Z.div_div by lia. f_equal.
    rewrite (Pos2Z.inj_xI p).
    replace (2 * Z.pos p + 1) with (1 + (Z.pos p + Z.pos p)) by lia.
    rewrite !pow2_add by lia. change (2 ^ 1) with 2. ring.
  - rewrite IH, IH by auto using iter_shr_1_nonneg.
    pose proof (pow2_pos (Zpos p) ltac:(lia)) as P.
    rewrite Z.div_div by lia. f_equal.
    rewrite (Pos2Z.inj_xO p).
    replace (2 * Z.pos p) with (Z.pos p + Z.pos p) by lia.
    now rewrite pow2_add by lia.
  - now apply shr_1_m.
Qed.

Lemma shr_1_exact k :
  0 <= k -> shr_1 (Build_shr_record (k * 2) false false) = Build_shr_record k false false.
Proof.
  intros H. destruct k as [|q|q]; [reflexivity| |lia].
  rewrite Z.mul_comm. reflexivity.
Qed.

Lemma iter_shr_1_exact p : forall k,
  0 <= k ->
  iter_pos shr_1 p (Build_shr_record (k * 2 ^ Zpos p) false false)
  = Build_shr_record k false false.
Proof.
  induction p as [p IH|p IH|]; intros k H; cbn [iter_pos].
  - pose proof (pow2_pos (Zpos p) ltac:(lia)) as P.
    replace (k * 2 ^ Z.pos p~1) with (k * 2 ^ Z.pos p * 2 ^ Z.pos p * 2).
    + rewrite shr_1_exact, IH, IH; auto; nia.
    + rewrite (Pos2Z.inj_xI p).
      replace (2 * Z.pos p + 1) with (Z.pos p + Z.pos p + 1) by lia.
      rewrite !pow2_add by lia. change (2 ^ 1) with 2. ring.
  - pose proof (pow2_pos (Zpos p) ltac:(lia)) as P.
    replace (k * 2 ^ Z.pos p~0) with (k * 2 ^ Z.pos p * 2 ^ Z.pos p).
    + rewrite IH, IH; auto; nia.
    + rewrite (Pos2Z.inj_xO p).
      replace (2 * Z.pos p) with (Z.pos p + Z.pos p) by lia.
      rewrite !pow2_add by lia. ring.
  - change (2 ^ 1) with 2. now apply shr_1_exact.
Qed.

Lemma shr_fexp_m m e l :
  0 <= m -> 0 <= shift_of m e ->
  shr_m (fst (shr_fexp prec emax m e l)) = m / 2 ^ shift_of m e /\
  snd (shr_fexp prec emax m e l) = e + shift_of m e.
Proof.
  unfold shift_of, shr_fexp, shr. intros Hm Hn.
  assert (E : shr_m (shr_record_of_loc m l) = m) by (destruct l as [|[]]; reflexivity).
  destruct (fexp prec emax (Zdigits2 m + e) - e) as [|p|p]; cbn [fst snd].
  - rewrite E, Z.div_1_r. split; [reflexivity|lia].
  - rewrite iter_shr_1_m by (rewrite E; exact Hm). rewrite E. split; reflexivity.
  - lia.
Qed.

Lemma shr_fexp_exact k e n :
  0 <= k -> 0 <= n -> shift_of (k * 2 ^ n) e = n ->
  fst (shr_fexp prec emax (k * 2 ^ n) e loc_Exact) = Build_shr_record k false false.
Proof.
  unfold shift_of, shr_fexp, shr. intros Hk Hn ->. cbn [shr_record_of_loc].
  destruct n as [|p|p]; cbn [fst].
  - now rewrite Z.mul_1_r.
  - now apply iter_shr_1_exact.
  - lia.
Qed.

Lemma round_nearest_even_bounds m l :
  m <= round_nearest_even m l <= m + 1.
Proof. destruct l as [|[]]; cbn; try lia. destruct (Z.even m); lia. Qed.

(** *** Values in canonical form *)
Lemma fexp_eq x : fexp prec emax x = Z.max (x - 53) (-1074).
Proof. reflexivity. Qed.

Lemma canonical_bounds m e :
  0 < m -> canonical m e ->
  -1074 <= e /\ m < 2 ^ 53 /\ (-1074 < e -> 2 ^ 52 <= m).
Proof.
  unfold canonical. rewrite fexp_eq. intros Hm Hc.
  destruct (Zdigits2_bounds m Hm) as (Hd & Hlo & Hhi).
  split; [lia|]. split.
  - pose proof (Z.pow_le_mono_r 2 (Zdigits2 m) 53 ltac:(lia) ltac:(lia)). lia.
  - intros He. now replace (Zdigits2 m) with 53 in Hlo by lia.
Qed.

Lemma mag_le m1 e1 m2 e2 :
  0 < m1 -> le_scaled m1 e1 m2 e2 -> Zdigits2 m1 + e1 <= Zdigits2 m2 + e2.
Proof.
  intros H1 H. pose proof (le_scaled_pos _ _ _ _ H1 H) as H2.
  destruct (Zdigits2_bounds m1 H1) as (Hd1 & Hlo1 & _).
  destruct (Zdigits2_bounds m2 H2) as (Hd2 & _ & Hhi2).
  set (k := Z.min e1 e2). apply (le_scaled_at k) in H; [|lia|lia].
  pose proof (pow2_pos (e1 - k) ltac:(lia)) as P1.
  pose proof (pow2_pos (e2 - k) ltac:(lia)) as P2.
  assert (Hlt : 2 ^ (Zdigits2 m1 - 1 + (e1 - k)) < 2 ^ (Zdigits2 m2 + (e2 - k))).
  { rewrite !pow2_add by lia.
    apply Z.le_lt_trans with (m1 * 2 ^ (e1 - k)).
    - apply Z.mul_le_mono_nonneg_r; lia.
    - apply Z.le_lt_trans with (m2 * 2 ^ (e2 - k)); [exact H|].
      apply Z.mul_lt_mono_pos_r; lia. }
  apply pow2_lt_inv in Hlt; lia.
Qed.

Lemma trunc_canonical m e :
  0 < m -> 0 <= shift_of m e -> 0 < m / 2 ^ shift_of m e ->
  canonical (m / 2 ^ shift_of m e) (e + shift_of m e).
Proof.
  intros Hm Hn Hq. unfold canonical. rewrite Zdigits2_div by assumption.
  replace (Zdigits2 m - shift_of m e + (e + shift_of m e)) with (Zdigits2 m + e) by lia.
  unfold shift_of. lia.
Qed.

Lemma trunc_upper m e :
  0 <= m -> 0 <= shift_of m e ->
  le_scaled (m / 2 ^ shift_of m e) (e + shift_of m e) m e.
Proof.
  intros Hm Hn. apply (le_scaled_at e); try lia.
  replace (e + shift_of m e - e) with (shift_of m e) by lia.
  rewrite Z.sub_diag, Z.mul_1_r, Z.mul_comm.
  apply Z.mul_div_le, pow2_pos, Hn.
Qed.

Lemma trunc_lower mc ec m e :
  0 < mc -> canonical mc ec -> 0 < m -> 0 <= shift_of m e ->
  le_scaled mc ec m e ->
  le_scaled mc ec (m / 2 ^ shift_of m e) (e + shift_of m e).
Proof.
  intros Hmc Hc Hm Hn H.
  destruct (canonical_bounds mc ec Hmc Hc) as (Hec & Hmc53 & _).
  pose proof (pow2_pos _ Hn) as Pn.
  destruct (Z.le_gt_cases (e + shift_of m e) ec) as [Hle|Hgt].
  - apply (le_scaled_at e) in H; [|lia|lia].
    apply (le_scaled_at (e + shift_of m e)); try lia.
    rewrite Z.sub_diag, Z.mul_1_r. rewrite Z.sub_diag, Z.mul_1_r in H.
    apply Z.div_le_lower_bound; [assumption|].
    rewrite (pow2_sub ec (e + shift_of m e) e) in H by lia.
    replace (e + shift_of m e - e) with (shift_of m e) in H by lia. lia.
  - assert (Hs : shift_of m e = Zdigits2 m - 53).
    { unfold shift_of in *. rewrite fexp_eq in *. lia. }
    destruct (Zdigits2_bounds m Hm) as (Hd & Hlo & Hhi).
    assert (Hq : 2 ^ 52 <= m / 2 ^ shift_of m e).
    { apply Z.div_le_lower_bound; [assumption|].
      rewrite <- pow2_add by lia. rewrite Hs.
      now replace (Zdigits2 m - 53 + 52) with (Zdigits2 m - 1) by lia. }
    apply (le_scaled_at ec); try lia.
    rewrite Z.sub_diag, Z.mul_1_r.
    pose proof (Z.pow_le_mono_r 2 1 (e + shift_of m e - ec) ltac:(lia) ltac:(lia)) as P.
    change (2 ^ 1) with 2 in P.
    revert P Hq Hmc53. generalize (2 ^ (e + shift_of m e - ec)) (m / 2 ^ shift_of m e).
    intros; nia.
Qed.

Lemma compare_canonical (m1 m2 : positive) (e1 e2 : Z) :
  canonical (Zpos m1) e1 -> canonical (Zpos m2) e2 ->
  SFleb (S754_finite false m1 e1) (S754_finite false m2 e2) = true <->
  le_scaled (Zpos m1) e1 (Zpos m2) e2.
Proof.
  intros C1 C2.
  destruct (canonical_bounds _ _ (Pos2Z.pos_is_pos m1) C1) as (He1 & Hm1 & Hn1).
  destruct (canonical_bounds _ _ (Pos2Z.pos_is_pos m2) C2) as (He2 & Hm2 & Hn2).
  unfold SFleb, SFcompare. destruct (Z.compare_spec e1 e2) as [E|Hlt|Hgt].
  - subst e2. rewrite (le_scaled_at e1) by lia. rewrite Z.sub_diag, !Z.mul_1_r.
    change (Pos.compare_cont Eq m1 m2) with (m1 ?= m2)%positive.
    destruct (Pos.compare_spec m1 m2) as [E|H|H]; split; intros H';
      try reflexivity; try discriminate; lia.
  - split; [intros _|reflexivity].
    apply (le_scaled_at e1); try lia. rewrite Z.sub_diag, Z.mul_1_r.
    pose proof (Z.pow_le_mono_r 2 1 (e2 - e1) ltac:(lia) ltac:(lia)) as P.
    change (2 ^ 1) with 2 in P. specialize (Hn2 ltac:(lia)).
    revert P. generalize (2 ^ (e2 - e1)). intros; nia.
  - split; [discriminate|intros H; exfalso].
    apply (le_scaled_at e2) in H; try lia. rewrite Z.sub_diag, Z.mul_1_r in H.
    pose proof (Z.pow_le_mono_r 2 1 (e1 - e2) ltac:(lia) ltac:(lia)) as P.
    change (2 ^ 1) with 2 in P. specialize (Hn1 ltac:(lia)).
    revert P H. generalize (2 ^ (e1 - e2)). intros; nia.
Qed.

Lemma canonical_le_exponent m1 e1 m2 e2 :
  0 < m1 -> canonical m1 e1 -> canonical m2 e2 ->
  le_scaled m1 e1 m2 e2 -> e1 <= e2.
Proof.
  intros H1 C1 C2 H. pose proof (mag_le _ _ _ _ H1 H) as Hmag.
  unfold canonical in *. rewrite fexp_eq in *. lia.
Qed.

(** *** Rounding to nearest *)
Definition rounded (s : bool) (r e : Z) : spec_float :=
  match r / 2 ^ shift_of r e with
  | Z0 => S754_zero s
  | Zpos p => if e + shift_of r e <=? emax - prec
              then S754_finite s p (e + shift_of r e) else S754_infinity s
  | Zneg _ => S754_nan
  end.

Lemma second_shift_nonneg m e r :
  0 < m -> 0 <= shift_of m e ->
  m / 2 ^ shift_of m e <= r -> 0 <= shift_of r (e + shift_of m e).
Proof.
  intros Hm Hn Hr. pose proof (pow2_pos _ Hn) as Pn.
  destruct (Zdigits2_bounds m Hm) as (Hd & Hlo & Hhi).
  pose proof (Z.div_pos m (2 ^ shift_of m e) ltac:(lia) Pn) as Hq.
  destruct (Z.eq_dec (m / 2 ^ shift_of m e) 0) as [E0|Hne].
  - assert (Hlt : m < 2 ^ shift_of m e).
    { destruct (Z.lt_ge_cases m (2 ^ shift_of m e)) as [?|Hge]; [assumption|].
      pose proof (Z.div_le_lower_bound m (2 ^ shift_of m e) 1 Pn ltac:(lia)). lia. }
    assert (Hd' : Zdigits2 m - 1 < shift_of m e) by (apply pow2_lt_inv; lia).
    assert (E1 : e + shift_of m e = -1074).
    { unfold shift_of in *. rewrite fexp_eq in *. lia. }
    rewrite E1. unfold shift_of. rewrite fexp_eq.
    destruct (Z.eq_dec r 0) as [->|Hr0]; [cbn; lia|].
    destruct (Zdigits2_bounds r ltac:(lia)) as (Hdr & _). lia.
  - pose proof (trunc_canonical m e Hm Hn ltac:(lia)) as Hc.
    pose proof (Zdigits2_mono (m / 2 ^ shift_of m e) r ltac:(lia) Hr) as Hmono.
    unfold canonical in Hc. unfold shift_of at 1. rewrite fexp_eq in *. lia.
Qed.

Lemma binary_round_aux_spec s m e l :
  0 < m -> 0 <= shift_of m e ->
  exists r,
    m / 2 ^ shift_of m e <= r <= m / 2 ^ shift_of m e + 1 /\
    (l = loc_Exact -> m mod 2 ^ shift_of m e = 0 -> r = m / 2 ^ shift_of m e) /\
    0 <= shift_of r (e + shift_of m e) /\
    binary_round_aux prec emax s m e l = rounded s r (e + shift_of m e).
Proof.
  intros Hm Hn. pose proof (pow2_pos _ Hn) as Pn.
  pose proof (Z.div_pos m (2 ^ shift_of m e) ltac:(lia) Pn) as Hq.
  unfold binary_round_aux.
  destruct (shr_fexp_m m e l ltac:(lia) Hn) as [E1 E2].
  destruct (shr_fexp prec emax m e l) as [mrs' e'] eqn:E. cbn [fst snd] in E1, E2.
  subst e'. set (r := round_nearest_even (shr_m mrs') (loc_of_shr_record mrs')).
  pose proof (round_nearest_even_bounds (shr_m mrs') (loc_of_shr_record mrs')) as Hr.
  fold r in Hr. rewrite E1 in Hr.
  pose proof (second_shift_nonneg m e r Hm Hn (proj1 Hr)) as Hn2.
  exists r. split; [exact Hr|]. split; [|split; [exact Hn2|]].
  - intros -> Hmod.
    assert (Em : m = m / 2 ^ shift_of m e * 2 ^ shift_of m e).
    { pose proof (Z.div_mod m (2 ^ shift_of m e) ltac:(lia)). lia. }
    pose proof (shr_fexp_exact (m / 2 ^ shift_of m e) e (shift_of m e) Hq Hn) as Hx.
    rewrite <- Em in Hx. rewrite E in Hx. cbn [fst] in Hx.
    specialize (Hx eq_refl). unfold r. rewrite Hx. reflexivity.
  - destruct (shr_fexp_m r (e + shift_of m e) loc_Exact ltac:(lia) Hn2) as [F1 F2].
    destruct (shr_fexp prec emax r (e + shift_of m e) loc_Exact) as [mrs'' e''].
    cbn [fst snd] in F1, F2. subst e''. rewrite F1. reflexivity.
Qed.

Lemma round_lower (mc : positive) (ec m e : Z) (l : location) :
  canonical (Zpos mc) ec -> 0 < m -> 0 <= shift_of m e ->
  le_scaled (Zpos mc) ec m e ->
  SFleb (S754_finite false mc ec) (binary_round_aux prec emax false m e l) = true.
Proof.
  intros Hc Hm Hn H.
  destruct (binary_round_aux_spec false m e l Hm Hn) as (r & Hr & _ & Hn2 & ->).
  pose proof (trunc_lower _ _ _ _ (Pos2Z.pos_is_pos mc) Hc Hm Hn H) as H1.
  pose proof (le_scaled_pos _ _ _ _ (Pos2Z.pos_is_pos mc) H1) as Hq.
  assert (H2 : le_scaled (Zpos mc) ec r (e + shift_of m e)).
  { eapply le_scaled_trans; [exact H1|]. apply le_scaled_mantissa. lia. }
  pose proof (trunc_lower _ _ r _ (Pos2Z.pos_is_pos mc) Hc ltac:(lia) Hn2 H2) as H3.
  pose proof (le_scaled_pos _ _ _ _ (Pos2Z.pos_is_pos mc) H3) as Hq2.
  pose proof (trunc_canonical r _ ltac:(lia) Hn2 Hq2) as Hc2.
  unfold rounded.
  destruct (r / 2 ^ shift_of r (e + shift_of m e)) as [|p|p]; try lia.
  destruct (_ <=? _); [|reflexivity].
  now apply compare_canonical.
Qed.

Lemma round_upper (mc : positive) (ec m e : Z) (l : location) :
  canonical (Zpos mc) ec -> ec <= 971 -> 0 < m -> 0 <= shift_of m e ->
  (l = loc_Exact /\ le_scaled m e (Zpos mc) ec) \/ le_scaled (m + 1) e (Zpos mc) ec ->
  SFleb (binary_round_aux prec emax false m e l) (S754_finite false mc ec) = true.
Proof.
  intros Hc Hec Hm Hn H.
  destruct (binary_round_aux_spec false m e l Hm Hn) as (r & Hr & Hex & Hn2 & ->).
  pose proof (pow2_pos _ Hn) as Pn.
  assert (Hle : le_scaled m e (Zpos mc) ec).
  { destruct H as [[_ H]|H]; [exact H|].
    eapply le_scaled_trans; [|exact H]. apply le_scaled_mantissa. lia. }
  assert (He1 : e + shift_of m e <= ec).
  { pose proof (mag_le _ _ _ _ Hm Hle) as Hmag.
    unfold canonical in Hc. unfold shift_of. rewrite fexp_eq in *. lia. }
  assert (H2 : le_scaled r (e + shift_of m e) (Zpos mc) ec).
  { apply (le_scaled_at (e + shift_of m e)); try lia.
    rewrite Z.sub_diag, Z.mul_1_r.
    set (C := Z.pos mc * 2 ^ (ec - (e + shift_of m e))).
    assert (EC : Z.pos mc * 2 ^ (ec - e) = C * 2 ^ shift_of m e).
    { unfold C. rewrite (pow2_sub ec (e + shift_of m e) e) by lia.
      replace (e + shift_of m e - e) with (shift_of m e) by lia. ring. }
    assert (Hlt : m < C * 2 ^ shift_of m e -> r <= C).
    { intros Hlt.
      pose proof (Z.div_lt_upper_bound m (2 ^ shift_of m e) C Pn ltac:(lia)). lia. }
    destruct H as [[-> H]|H].
    - apply (le_scaled_at e) in H; try lia.
      rewrite Z.sub_diag, Z.mul_1_r, EC in H.
      destruct (Z.eq_dec m (C * 2 ^ shift_of m e)) as [Em|Hne]; [|apply Hlt; lia].
      rewrite Hex; auto.
      + assert (C = m / 2 ^ shift_of m e); [|lia].
        apply Z.div_unique with (r := 0); lia.
      + symmetry. apply Z.mod_unique with (q := C); lia.
    - apply (le_scaled_at e) in H; try lia.
      rewrite Z.sub_diag, Z.mul_1_r, EC in H. apply Hlt. lia. }
  assert (Hr0 : 0 <= r).
  { pose proof (Z.div_pos m (2 ^ shift_of m e) ltac:(lia) Pn). lia. }
  pose proof (trunc_upper r (e + shift_of m e) Hr0 Hn2) as H3.
  pose proof (le_scaled_trans _ _ _ _ _ _ H3 H2) as H4.
  unfold rounded.
  destruct (r / 2 ^ shift_of r (e + shift_of m e)) as [|p|p] eqn:Ep.
  - reflexivity.
  - assert (Hc2 : canonical (Zpos p) (e + shift_of m e + shift_of r (e + shift_of m e))).
    { rewrite <- Ep. apply trunc_canonical; try lia.
      destruct (Z.eq_dec r 0) as [->|]; [|lia]. rewrite Z.div_0_l in Ep; [lia|].
      pose proof (pow2_pos _ Hn2). lia. }
    pose proof (canonical_le_exponent _ _ _ _ (Pos2Z.pos_is_pos p) Hc2 Hc H4) as He2.
    destruct (Z.leb_spec (e + shift_of m e + shift_of r (e + shift_of m e)) (emax - prec))
      as [_|Hgt].
    + now apply compare_canonical.
    + unfold emax, prec in Hgt. lia.
  - pose proof (pow2_pos _ Hn2) as Pn2.
    pose proof (Z.div_pos r _ Hr0 Pn2). lia.
Qed.

(** The sign of a rounded value is the sign it was given. *)
Definition has_sign (s : bool) (x : spec_float) : bool :=
  match x with
  | S754_zero s' | S754_infinity s' | S754_finite s' _ _ => Bool.eqb s s'
  | S754_nan => false
  end.

Lemma binary_round_aux_sign s m e l :
  0 <= m -> has_sign s (binary_round_aux prec emax s m e l) = true.
Proof.
  intros H. unfold binary_round_aux.
  pose proof (shr_fexp_nonneg m e l H) as H1.
  destruct (shr_fexp prec emax m e l) as [mrs' e']. cbn [fst] in H1.
  pose proof (shr_fexp_nonneg _ e' loc_Exact
                (round_nearest_even_nonneg _ (loc_of_shr_record mrs') H1)) as H2.
  destruct (shr_fexp prec emax _ e' loc_Exact) as [mrs'' e'']. cbn [fst] in H2.
  destruct (shr_m mrs'') as [|q|q]; [apply eqb_reflx| |lia].
  destruct (e'' <=? emax - prec); apply eqb_reflx.
Qed.

(** *** Products and quotients of positive values *)
Lemma shift_of_normal m e : 2 ^ 52 <= m -> 0 <= shift_of m e.
Proof.
  intros Hm. assert (H0 : 0 < 2 ^ 52) by reflexivity.
  pose proof (Zdigits2_mono (2 ^ 52) m H0 Hm) as Hd.
  change (Zdigits2 (2 ^ 52)) with 53 in Hd.
  unfold shift_of. rewrite fexp_eq. lia.
Qed.

Lemma valid_canonical s m e :
  valid_binary (S754_finite s m e) = true -> canonical (Zpos m) e /\ e <= 971.
Proof.
  unfold valid_binary, bounded, canonical_mantissa, canonical.
  intros H. apply andb_true_iff in H as [H1 H2].
  apply Z.eqb_eq in H1. apply Z.leb_le in H2. split; [exact H1|exact H2].
Qed.

Lemma SFmul_lower (mc m1 m2 : positive) (ec e1 e2 : Z) :
  canonical (Zpos mc) ec -> 2 ^ 52 <= Zpos m2 ->
  le_scaled (Zpos mc) ec (Zpos m1 * Zpos m2) (e1 + e2) ->
  SFleb (S754_finite false mc ec)
        (SFmul prec emax (S754_finite false m1 e1) (S754_finite false m2 e2)) = true.
Proof.
  intros Hc H2 H. cbn [SFmul xorb]. rewrite Pos2Z.inj_mul.
  apply round_lower; auto; [nia|]. apply shift_of_normal. nia.
Qed.

Lemma SFmul_upper (mc m1 m2 : positive) (ec e1 e2 : Z) :
  canonical (Zpos mc) ec -> ec <= 971 -> 2 ^ 52 <= Zpos m2 ->
  le_scaled (Zpos m1 * Zpos m2) (e1 + e2) (Zpos mc) ec ->
  SFleb (SFmul prec emax (S754_finite false m1 e1) (S754_finite false m2 e2))
        (S754_finite false mc ec) = true.
Proof.
  intros Hc Hec H2 H. cbn [SFmul xorb]. rewrite Pos2Z.inj_mul.
  apply round_upper; auto; [nia|apply shift_of_normal; nia].
Qed.

Lemma new_location_0 nb : new_location nb 0 = loc_Exact.
Proof. unfold new_location. destruct (Z.even nb); reflexivity. Qed.

(** The quotient of two 53-bit mantissas, before it is rounded. *)
Lemma SFdiv_core_binary_normal (m1 m2 : positive) (e1 e2 : Z) :
  2 ^ 52 <= Zpos m1 < 2 ^ 53 -> 2 ^ 52 <= Zpos m2 < 2 ^ 53 ->
  -1021 <= e1 - e2 ->
  exists q r l,
    SFdiv_core_binary prec emax (Zpos m1) e1 (Zpos m2) e2 = (q, e1 - e2 - 53, l) /\
    Zpos m1 * 2 ^ 53 = Zpos m2 * q + r /\ 0 <= r < Zpos m2 /\
    (r = 0 -> l = loc_Exact) /\ 2 ^ 52 <= q.
Proof.
  intros H1 H2 He. unfold SFdiv_core_binary.
  rewrite (Zdigits2_unique (Zpos m1) 53), (Zdigits2_unique (Zpos m2) 53)
    by (try reflexivity; exact H1 || exact H2).
  rewrite fexp_eq.
  replace (Z.min (Z.max (53 + e1 - (53 + e2) - 53) (-1074)) (e1 - e2))
    with (e1 - e2 - 53) by lia.
  replace (e1 - e2 - (e1 - e2 - 53)) with 53 by lia.
  rewrite Z.shiftl_mul_pow2 by lia.
  pose proof (Z_div_mod (Zpos m1 * 2 ^ 53) (Zpos m2) ltac:(lia)) as H.
  destruct (Z.div_eucl (Zpos m1 * 2 ^ 53) (Zpos m2)) as [q r].
  destruct H as [Eq Hr].
  exists q, r, (new_location (Zpos m2) r). split; [reflexivity|].
  split; [exact Eq|]. split; [exact Hr|]. split.
  - intros ->. apply new_location_0.
  - nia.
Qed.

Lemma SFdiv_lower (mc m1 m2 : positive) (ec e1 e2 : Z) :
  canonical (Zpos mc) ec ->
  2 ^ 52 <= Zpos m1 < 2 ^ 53 -> 2 ^ 52 <= Zpos m2 < 2 ^ 53 -> -1021 <= e1 - e2 ->
  le_scaled (Zpos mc * Zpos m2) (ec + e2) (Zpos m1) e1 ->
  SFleb (S754_finite false mc ec)
        (SFdiv prec emax (S754_finite false m1 e1) (S754_finite false m2 e2)) = true.
Proof.
  intros Hc H1 H2 He H. cbn [SFdiv xorb].
  destruct (SFdiv_core_binary_normal m1 m2 e1 e2 H1 H2 He)
    as (q & r & l & -> & Eq & Hr & _ & Hq).
  destruct (canonical_bounds _ _ (Pos2Z.pos_is_pos mc) Hc) as (Hec & Hmc & _).
  apply round_lower; auto; [lia|apply shift_of_normal; exact Hq|].
  destruct (Z.le_gt_cases (e1 - e2 - 53) ec) as [Hle|Hgt].
  - apply (le_scaled_at (e1 - 53)) in H; try lia.
    replace (e1 - (e1 - 53)) with 53 in H by lia.
    apply (le_scaled_at (e1 - e2 - 53)); try lia.
    rewrite Z.sub_diag, Z.mul_1_r.
    replace (ec + e2 - (e1 - 53)) with (ec - (e1 - e2 - 53)) in H by lia.
    pose proof (pow2_pos (ec - (e1 - e2 - 53)) ltac:(lia)) as P.
    revert H P. generalize (2 ^ (ec - (e1 - e2 - 53))). intros C H P. nia.
  - apply (le_scaled_at ec); try lia. rewrite Z.sub_diag, Z.mul_1_r.
    pose proof (Z.pow_le_mono_r 2 1 (e1 - e2 - 53 - ec) ltac:(lia) ltac:(lia)) as P.
    change (2 ^ 1) with 2 in P.
    revert P. generalize (2 ^ (e1 - e2 - 53 - ec)). intros; nia.
Qed.

Lemma SFdiv_upper (mc m1 m2 : positive) (ec e1 e2 : Z) :
  canonical (Zpos mc) ec -> ec <= 971 ->
  2 ^ 52 <= Zpos m1 < 2 ^ 53 -> 2 ^ 52 <= Zpos m2 < 2 ^ 53 -> -1021 <= e1 - e2 ->
  le_scaled (Zpos m1) e1 (Zpos mc * Zpos m2) (ec + e2) ->
  SFleb (SFdiv prec emax (S754_finite false m1 e1) (S754_finite false m2 e2))
        (S754_finite false mc ec) = true.
Proof.
  intros Hc Hec971 H1 H2 He H. cbn [SFdiv xorb].
  destruct (SFdiv_core_binary_normal m1 m2 e1 e2 H1 H2 He)
    as (q & r & l & -> & Eq & Hr & Hex & Hq).
  destruct (canonical_bounds _ _ (Pos2Z.pos_is_pos mc) Hc) as (Hec & Hmc & _).
  assert (Hle : e1 - e2 - 53 <= ec).
  { pose proof (mag_le _ _ _ _ (Pos2Z.pos_is_pos m1) H) as Hmag.
    rewrite (Zdigits2_unique (Zpos m1) 53) in Hmag by (try reflexivity; exact H1).
    assert (Hd : Zdigits2 (Zpos mc * Zpos m2) <= 106).
    { destruct (Zdigits2_bounds (Zpos mc * Zpos m2) ltac:(lia)) as (Hd & Hlo & _).
      assert (Zdigits2 (Z.pos mc * Z.pos m2) - 1 < 106); [|lia].
      apply pow2_lt_inv; [lia|].
      change (2 ^ 106) with (2 ^ 53 * 2 ^ 53). nia. }
    lia. }
  apply round_upper; auto; [lia|apply shift_of_normal; exact Hq|].
  apply (le_scaled_at (e1 - 53)) in H; try lia.
  replace (e1 - (e1 - 53)) with 53 in H by lia.
  replace (ec + e2 - (e1 - 53)) with (ec - (e1 - e2 - 53)) in H by lia.
  rewrite !(le_scaled_at (e1 - e2 - 53)) by lia.
  rewrite Z.sub_diag, !Z.mul_1_r.
  pose proof (pow2_pos (ec - (e1 - e2 - 53)) ltac:(lia)) as P.
  revert H P. generalize (2 ^ (ec - (e1 - e2 - 53))). intros C H P.
  destruct (Z.eq_dec r 0) as [E0|Hne].
  - left. split; [auto|]. nia.
  - right. nia.
Qed.

End Rounding.

(** ** The ROI alert in terms of the inputs *)
Module RoiFacts.
Import Binary64 Rounding.
Local Open Scope Z_scope.

Lemma le_scaled_mul a ea b eb m e :
  0 <= m -> le_scaled a ea b eb -> le_scaled (a * m) (ea + e) (b * m) (eb + e).
Proof.
  intros Hm H. set (k := Z.min ea eb).
  apply (le_scaled_at k) in H; try lia.
  apply (le_scaled_at (k + e)); try lia.
  replace (ea + e - (k + e)) with (ea - k) by lia.
  replace (eb + e - (k + e)) with (eb - k) by lia.
  replace (a * m * 2 ^ (ea - k)) with (a * 2 ^ (ea - k) * m) by ring.
  replace (b * m * 2 ^ (eb - k)) with (b * 2 ^ (eb - k) * m) by ring.
  now apply Z.mul_le_mono_nonneg_r.
Qed.

(** Integers as binary64 values: [n = m * 2^e] with a mantissa of 53 bits. *)
Lemma float_of_int_normal (n : Z) :
  0 < n < 2 ^ 53 ->
  exists m e,
    Prim2SF (float_of_int n) = S754_finite false m e /\
    2 ^ 52 <= Zpos m < 2 ^ 53 /\ -52 <= e <= 0 /\ Zpos m = n * 2 ^ (- e).
Proof.
  intros Hn.
  destruct (float_of_int_exact n ltac:(lia) ltac:(lia)) as (m & e & E & He & Hm).
  replace (n <? 0) with false in E by (symmetry; apply Z.ltb_ge; lia).
  rewrite Z.abs_eq in Hm by lia.
  pose proof (Prim2SF_valid (float_of_int n)) as Hv. rewrite E in Hv.
  destruct (valid_canonical _ _ _ Hv) as [Hc _].
  destruct (canonical_bounds _ _ (Pos2Z.pos_is_pos m) Hc) as (Hlo & H53 & Hnorm).
  pose proof (pow2_pos (- e) ltac:(lia)) as P.
  assert (He52 : - e < 53).
  { apply pow2_lt_inv; [lia|]. nia. }
  exists m, e. split; [exact E|]. split; [|split; [lia|exact Hm]].
  split; [apply Hnorm; lia|exact H53].
Qed.

(** [c <= n / i] and [n / i <= c] for [c = mc * 2^ec], on the mantissas. *)
Lemma le_scaled_quotient (mc ec n i ma ea mb eb : Z) :
  ec <= 0 -> ea <= 0 -> eb <= 0 ->
  ma = n * 2 ^ (- ea) -> mb = i * 2 ^ (- eb) ->
  (mc * i <= n * 2 ^ (- ec) -> le_scaled (mc * mb) (ec + eb) ma ea) /\
  (n * 2 ^ (- ec) <= mc * i -> le_scaled ma ea (mc * mb) (ec + eb)).
Proof.
  intros Hec Hea Heb -> ->.
  rewrite !(le_scaled_at (ec + eb + ea)) by lia.
  replace (ec + eb - (ec + eb + ea)) with (- ea) by lia.
  replace (ea - (ec + eb + ea)) with (- ec + - eb) by lia.
  rewrite pow2_add by lia.
  pose proof (pow2_pos (- ea) ltac:(lia)) as Pa.
  pose proof (pow2_pos (- eb) ltac:(lia)) as Pb.
  generalize dependent (2 ^ (- ea)). generalize dependent (2 ^ (- eb)).
  generalize (2 ^ (- ec)). intros C B PB A PA.
  assert (PAB : 0 < A * B) by nia.
  replace (mc * (i * B) * A) with (mc * i * (A * B)) by ring.
  replace (n * A * (C * B)) with (n * C * (A * B)) by ring.
  split; intros H; apply Z.mul_le_mono_nonneg_r; lia.
Qed.

Definition positive_finite (x : spec_float) : Prop :=
  exists m e, x = S754_finite false m e /\ canonical (Zpos m) e.

Lemma between_positive_finite (x : spec_float) (m1 m2 : positive) (e1 e2 : Z) :
  valid_binary x = true ->
  SFleb (S754_finite false m1 e1) x = true ->
  SFleb x (S754_finite false m2 e2) = true ->
  positive_finite x.
Proof.
  intros Hv H1 H2. destruct x as [s|s| |s m e]; try discriminate.
  - destruct s; discriminate.
  - destruct s; [discriminate|].
    exists m, e. split; [reflexivity|]. apply (valid_canonical false m e Hv).
Qed.

Lemma SFltb_has_sign (c x : spec_float) :
  has_sign false c = true -> has_sign true x = true -> SFltb c x = false.
Proof.
  destruct c as [[]|[]| |[] mc ec]; try discriminate;
    destruct x as [[]|[]| |[] mx ex]; try discriminate; reflexivity.
Qed.

Lemma SFdiv_has_sign (m1 m2 : positive) (e1 e2 : Z) :
  has_sign true (SFdiv prec emax (S754_finite true m1 e1) (S754_finite false m2 e2)) = true.
Proof.
  cbn [SFdiv xorb]. pose proof (SFdiv_core_binary_nonneg m1 e1 m2 e2) as H.
  destruct (SFdiv_core_binary prec emax (Z.pos m1) e1 (Z.pos m2) e2) as [[mz ez] lz].
  apply binary_round_aux_sign. exact H.
Qed.

Lemma SFmul_has_sign (x : spec_float) (m : positive) (e : Z) :
  has_sign true x = true ->
  has_sign true (SFmul prec emax x (S754_finite false m e)) = true.
Proof.
  destruct x as [[]|[]| |[] mx ex]; try discriminate; intros _; try reflexivity.
  cbn [SFmul xorb]. apply binary_round_aux_sign. lia.
Qed.

(** The sign of [n / i * 100] and its place with respect to 50, for an
    investment [i] of at most ten millions and [n / i] below [2^13]. *)
Lemma roi_thresholds (n i : Z) :
  0 < i <= 10000000 -> - 2 ^ 53 < n -> n <= 8192 * i ->
  let f := (float_of_int n / float_of_int i * float_of_int 100)%float in
  (float_of_int 50 <? f)%float = (i <? 2 * n) /\
  (float_of_int 0 <? f)%float = (0 <? n).
Proof.
  intros Hi Hlo Hhi f. unfold f.
  rewrite !FloatAxioms.ltb_spec, mul_spec, div_spec. unfold SF64mul, SF64div.
  destruct (float_of_int_normal i ltac:(lia)) as (mb & eb & Eb & Hmb & Heb & Vb).
  rewrite Eb.
  eval_Prim2SF (float_of_int 100). eval_Prim2SF (float_of_int 50).
  eval_Prim2SF (float_of_int 0).
  destruct (Z.lt_trichotomy n 0) as [Hneg|[->|Hpos]].
  - (* the savings do not reach the investment *)
    destruct (float_of_int_exact n ltac:(lia) ltac:(lia)) as (ma & ea & Ea & _).
    replace (n <? 0) with true in Ea by (symmetry; apply Z.ltb_lt; lia).
    rewrite Ea.
    replace (i <? 2 * n) with false by (symmetry; apply Z.ltb_ge; lia).
    replace (0 <? n) with false by (symmetry; apply Z.ltb_ge; lia).
    split; apply SFltb_has_sign; try reflexivity;
      apply SFmul_has_sign, SFdiv_has_sign.
  - (* break-even *)
    eval_Prim2SF (float_of_int 0).
    replace (i <? 2 * 0) with false by (symmetry; apply Z.ltb_ge; lia).
    split; reflexivity.
  - destruct (float_of_int_normal n ltac:(lia)) as (ma & ea & Ea & Hma & Hea & Va).
    rewrite Ea.
    replace (0 <? n) with true by (symmetry; apply Z.ltb_lt; lia).
    set (q := SFdiv prec emax (S754_finite false ma ea) (S754_finite false mb eb)).
    assert (Hv : valid_binary q = true).
    { unfold q. rewrite <- Ea, <- Eb. fold (SF64div (Prim2SF (float_of_int n))
        (Prim2SF (float_of_int i))). rewrite <- div_spec. apply Prim2SF_valid. }
    (* 2^-24 <= n / i <= 2^13 *)
    assert (Hq1 : SFleb (S754_finite false 4503599627370496 (-76)) q = true).
    { apply SFdiv_lower; try assumption; try reflexivity; try lia.
      apply (le_scaled_quotient _ (-76) n i); lia. }
    assert (Hq2 : SFleb q (S754_finite false 4503599627370496 (-39)) = true).
    { apply SFdiv_upper; try assumption; try reflexivity; try lia.
      apply (le_scaled_quotient _ (-39) n i); lia. }
    destruct (between_positive_finite q _ _ _ _ Hv Hq1 Hq2) as (mq & eq & Eq & Cq).
    rewrite Eq in *. split.
    + destruct (Z.ltb_spec i (2 * n)) as [Hgt|Hle].
      * (* n / i >= 1/2 + 2^-53, so the product is at least 50 + 2^-47 *)
        assert (Hc : SFleb (S754_finite false 4503599627370497 (-53))
                       (S754_finite false mq eq) = true).
        { rewrite <- Eq. apply SFdiv_lower; try assumption; try reflexivity; try lia.
          apply (le_scaled_quotient _ (-53) n i); lia. }
        apply compare_canonical in Hc; [|reflexivity|exact Cq].
        apply (SFltb_leb_trans _ (S754_finite false 7036874417766401 (-47)));
          [reflexivity|].
        apply SFmul_lower; [reflexivity|unfold Z.le; vm_compute; discriminate|].
        eapply le_scaled_trans; [|apply le_scaled_mul; [lia|exact Hc]].
        unfold le_scaled, Z.le. vm_compute. discriminate.
      * (* n / i <= 1/2, so the product is at most 50 *)
        assert (Hc : SFleb (S754_finite false mq eq)
                       (S754_finite false 4503599627370496 (-53)) = true).
        { rewrite <- Eq. apply SFdiv_upper; try assumption; try reflexivity; try lia.
          apply (le_scaled_quotient _ (-53) n i); lia. }
        apply compare_canonical in Hc; [|exact Cq|reflexivity].
        apply SFleb_not_ltb.
        apply SFmul_upper; [reflexivity|lia|unfold Z.le; vm_compute; discriminate|].
        eapply le_scaled_trans; [apply le_scaled_mul; [lia|exact Hc]|].
        unfold le_scaled, Z.le. vm_compute. discriminate.
    + apply compare_canonical in Hq1; [|reflexivity|exact Cq].
      apply (SFltb_leb_trans _ (S754_finite false 4503599627370496 (-70)));
        [reflexivity|].
      apply SFmul_lower; [reflexivity|unfold Z.le; vm_compute; discriminate|].
      eapply le_scaled_trans; [|apply le_scaled_mul; [lia|exact Hq1]].
      unfold le_scaled, Z.le. vm_compute. discriminate.
Qed.

End RoiFacts.

Import RoiFacts.

(** X14.  For every investment, annual saving and number of years the inputs
    of the ROI calculator can deliver, the alert is decided by the inputs
    themselves, with no effect of rounding: excellent exactly when twice the
    total savings exceed three times the investment, negative exactly when
    the total savings do not exceed the investment, moderate in between.  At
    break-even the ROI is the float 0, shown as "0.00 %" with the negative
    alert. *)
Theorem roi_alert_thresholds (investment annual_savings years : Z) :
  delivers investment_input investment ->
  delivers annual_savings_input annual_savings ->
  delivers years_slider years ->
  exists r,
    roi investment annual_savings years = Ok r /\
    (roi_alert r = roi_excellent <->
       3 * investment < 2 * (annual_savings * years)) /\
    (roi_alert r = roi_moderate <->
       investment < annual_savings * years /\
       2 * (annual_savings * years) <= 3 * investment) /\
    (roi_alert r = roi_negative <-> annual_savings * years <= investment) /\
    (annual_savings * years = investment ->
       r = PyFloat 0 /\ roi_metric r = ("ROI over Time Period", "0.00 %")).
Proof.
  unfold delivers. cbn [min_value max_value investment_input
    annual_savings_input years_slider]. intros Hi Ha Hy.
  assert (Hsy : 1000 <= annual_savings * years <= 50000000) by nia.
  unfold roi. rewrite truediv_int_nonzero by lia. cbn [bind].
  eexists. split; [reflexivity|]. cbn [mul sub to_float].
  set (n := annual_savings * years - investment).
  destruct (roi_thresholds n investment) as [H50 H0];
    [lia|unfold n; lia|unfold n; lia|].
  unfold roi_alert, gt, lt, to_float. rewrite H50, H0. clear H50 H0.
  split; [|split; [|split]].
  - destruct (Z.ltb_spec investment (2 * n)) as [H|H].
    + split; [intros _; unfold n in H; lia|reflexivity].
    + split; [|unfold n in H; lia].
      destruct (0 <? n)%Z; discriminate.
  - destruct (Z.ltb_spec investment (2 * n)) as [H|H].
    + split; [discriminate|unfold n in H; lia].
    + destruct (Z.ltb_spec 0 n) as [H'|H'].
      * split; [intros _; unfold n in H, H'; lia|reflexivity].
      * split; [discriminate|unfold n in H'; lia].
  - destruct (Z.ltb_spec investment (2 * n)) as [H|H].
    + split; [discriminate|unfold n in H; lia].
    + destruct (Z.ltb_spec 0 n) as [H'|H'].
      * split; [discriminate|unfold n in H'; lia].
      * split; [intros _; unfold n in H'; lia|reflexivity].
  - intros E. replace n with 0 by (unfold n; lia).
    assert (E0 : (float_of_int 0 / float_of_int investment * float_of_int 100)%float
                 = 0%float).
    { rewrite <- (SF2Prim_Prim2SF (_ * _)%float), mul_spec, div_spec.
      unfold SF64mul, SF64div.
      destruct (float_of_int_normal investment ltac:(lia)) as (mb & eb & -> & _).
      reflexivity. }
    rewrite E0. split; reflexivity.
Qed.

Lemma roi_alert_thresholds_witness :
  exists r,
    roi 500000 100000 3 = Ok r /\
    (roi_alert r = roi_excellent <-> 3 * 500000 < 2 * (100000 * 3)) /\
    (roi_alert r = roi_moderate <->
       500000 < 100000 * 3 /\ 2 * (100000 * 3) <= 3 * 500000) /\
    (roi_alert r = roi_negative <-> 100000 * 3 <= 500000) /\
    (100000 * 3 = 500000 ->
       r = PyFloat 0 /\ roi_metric r = ("ROI over Time Period", "0.00 %")).
Proof.
  apply (roi_alert_thresholds 500000 100000 3);
    unfold delivers; cbn; lia.
Defined.
